(** * Summary networks of BayesFlow ([bayesflow/summary_networks.py])

    A shallow embedding of the four summary networks ([SetTransformer],
    [DeepSet] with its deprecated alias [InvariantNetwork],
    [SequentialNetwork], [SplitNetwork]) and the properties of their
    construction and of their forward pass.

    Conventions of the embedding.
    - Python dictionaries with string keys are [gmap string pyval].
    - Layer counts and sizes are [nat].  Negative integers, on which
      [range] is empty and the layers of Keras raise, are left out.
    - Construction is effectful: it allocates objects (each Keras object has
      an identity, and its trainable parameters belong to that identity),
      it may emit warnings and it may raise.  These effects are threaded
      through the monad [Py].
    - The forward pass of the primitive layers (dense, attention,
      convolution, recurrent, equivariant and invariant modules) is not part
      of this file of the repository; it is the interface [Primitives], a
      family of functions of the layer object and of its input, that is, the
      forward pass at fixed parameter values. *)

From stdpp Require Import gmap strings list.

Set Warnings "-register-all".

(** ** Python values, exceptions and warnings *)

Inductive pyval :=
| PNone
| PInt (n : Z)
| PStr (s : string)
| PBool (b : bool)
| PCallable (f : nat)
| PDict (d : gmap string pyval).

Abbreviation kwargs := (gmap string pyval).

Inductive exn :=
| ConfigurationError (msg : string)
| TypeError (msg : string)
| IndexError
| ValueError (msg : string).

Record Warning := { w_category : string; w_message : string }.

(** The part of the interpreter state that construction touches: the
    allocator of object identities and the warnings issued so far. *)
Record World := { next_id : nat; warnings : list Warning }.

Definition Py (A : Type) : Type := World -> World * (exn + A).

#[export] Instance Py_ret : MRet Py := fun A a w => (w, inr a).

#[export] Instance Py_bind : MBind Py := fun A B f m w =>
  match m w with
  | (w', inl e) => (w', inl e)
  | (w', inr a) => f a w'
  end.

Definition raise {A} (e : exn) : Py A := fun w => (w, inl e).

(** [warnings.warn(message, category)] under the default filters: the
    warning is recorded and execution goes on. *)
Definition warn (message category : string) : Py unit := fun w =>
  ({| next_id := next_id w;
      warnings := warnings w ++ [{| w_category := category; w_message := message |}] |},
   inr tt).

(** Allocation of a new object. *)
Definition fresh : Py nat := fun w =>
  ({| next_id := S (next_id w); warnings := warnings w |}, inr (next_id w)).

(** [[body for _ in range(n)]] *)
Fixpoint list_comp {A} (n : nat) (body : Py A) : Py (list A) :=
  match n with
  | 0 => mret []
  | S n' => x ← body; xs ← list_comp n' body; mret (x :: xs)
  end.

(** ** Tensors

    A tensor of rank 3 is a batch of sets (or sequences) of feature vectors,
    a tensor of rank 2 a batch of feature vectors. *)

Definition Tensor2 (scalar : Type) : Type := list (list scalar).
Definition Tensor3 (scalar : Type) : Type := list (list (list scalar)).

Definition has_shape2 {scalar} (t : Tensor2 scalar) (b s : nat) : Prop :=
  length t = b ∧ Forall (fun row => length row = s) t.

Definition has_shape3 {scalar} (t : Tensor3 scalar) (b n d : nat) : Prop :=
  length t = b ∧
  Forall (fun set => length set = n ∧ Forall (fun e => length e = d) set) t.

(** The same reordering [pi] of the element axis in every batch entry:
    entry [j] of the result is entry [pi !! j] of the input. *)
Definition permute_set {scalar} (pi : list nat) (x : Tensor3 scalar) : Tensor3 scalar :=
  map (fun set => map (fun i => nth i set []) pi) x.

Definition is_perm (pi : list nat) (n : nat) : Prop := Permutation pi (seq 0 n).

Definition set_size {scalar} (x : Tensor3 scalar) (n : nat) : Prop :=
  Forall (fun set => length set = n) x.

(** [tf.concat(values, axis=-1)] on tensors of rank 2.  TensorFlow rejects
    an empty list of values, returns the only value of a one-element list,
    and rejects values whose batch sizes differ. *)
Definition concat_pair {scalar} (a b : Tensor2 scalar) : exn + Tensor2 scalar :=
  if decide (length a = length b)
  then inr (zip_with app a b)
  else inl (ValueError "Dimension 0 in both shapes must be equal").

Definition tf_concat_last {scalar} (values : list (Tensor2 scalar)) : exn + Tensor2 scalar :=
  match values with
  | [] => inl (ValueError "List argument values to ConcatV2 Op with length 0 shorter than minimum length 2")
  | v :: rest =>
      fold_left (fun acc u => match acc with inl e => inl e | inr a => concat_pair a u end)
                rest (inr v)
  end.

(** ** Primitive layers

    The classes of [tensorflow.keras], [bayesflow.helper_networks] and
    [bayesflow.attention] that the summary networks instantiate.  An object
    is its identity together with the arguments it was constructed with. *)

Record Dense := { dense_id : nat; dense_units : nat; dense_activation : string }.

Record LSTM := { lstm_id : nat; lstm_units : nat; lstm_return_sequences : bool }.

Record MultiConv1D := { conv_id : nat; conv_settings : kwargs }.

Record EquivariantModule := { equiv_id : nat; equiv_settings : kwargs }.

Inductive Pooler := PoolMean | PoolMax | PoolCustom (f : nat).

Record InvariantModule := { inv_id : nat; inv_settings : kwargs; inv_pooler : Pooler }.

Record SelfAttentionBlock := {
  sab_id : nat;
  sab_input_dim : nat;
  sab_attention_settings : kwargs;
  sab_num_dense_fc : nat;
  sab_dense_settings : kwargs;
  sab_use_layer_norm : bool }.

Record InducedSelfAttentionBlock := {
  isab_id : nat;
  isab_input_dim : nat;
  isab_attention_settings : kwargs;
  isab_num_dense_fc : nat;
  isab_dense_settings : kwargs;
  isab_use_layer_norm : bool;
  isab_num_inducing_points : nat }.

Record PoolingWithAttention := {
  pma_id : nat;
  pma_summary_dim : nat;
  pma_attention_settings : kwargs;
  pma_num_dense_fc : nat;
  pma_dense_settings : kwargs;
  pma_use_layer_norm : bool;
  pma_num_seeds : nat }.

(** [Dense(units, activation=...)] *)
Definition Dense_init (units : nat) (activation : string) : Py Dense :=
  i ← fresh; mret {| dense_id := i; dense_units := units; dense_activation := activation |}.

(** [LSTM(units)]: Keras' default is [return_sequences=False], the layer
    returns its last hidden state only. *)
Definition LSTM_init (units : nat) : Py LSTM :=
  i ← fresh; mret {| lstm_id := i; lstm_units := units; lstm_return_sequences := false |}.

(** Modelled from the spec: the constructor of [MultiConv1D]
    ([bayesflow.helper_networks]) is an external primitive configured by
    its settings dictionary. *)
Definition MultiConv1D_init (settings : kwargs) : Py MultiConv1D :=
  i ← fresh; mret {| conv_id := i; conv_settings := settings |}.

(** Modelled from the spec: the constructor of [EquivariantModule]
    ([bayesflow.helper_networks]) is an external primitive configured by
    the settings dictionary of the deep set. *)
Definition EquivariantModule_init (settings : kwargs) : Py EquivariantModule :=
  i ← fresh; mret {| equiv_id := i; equiv_settings := settings |}.

(** Modelled from the spec: the pooling choice of [InvariantModule]
    ([bayesflow.helper_networks]).  [pooling_fun] is one of "mean", "max" or
    a custom learnable pooling network; an unknown string is an invalid
    configuration and fails at construction, it is not replaced by a
    default. *)
Definition resolve_pooling_fun (v : option pyval) : Py Pooler :=
  match v with
  | Some (PStr s) =>
      if String.eqb s "mean" then mret PoolMean
      else if String.eqb s "max" then mret PoolMax
      else raise (ConfigurationError "pooling_fun argument not understood!")
  | Some (PCallable f) => mret (PoolCustom f)
  | _ => raise (ConfigurationError "pooling_fun argument not understood!")
  end.

(** Modelled from the spec: the constructor of [InvariantModule]
    ([bayesflow.helper_networks]), which picks its pooling function from
    [settings["pooling_fun"]]. *)
Definition InvariantModule_init (settings : kwargs) : Py InvariantModule :=
  i ← fresh;
  p ← resolve_pooling_fun (settings !! "pooling_fun");
  mret {| inv_id := i; inv_settings := settings; inv_pooler := p |}.

(** Modelled from the spec: the settings that a block of
    [bayesflow.attention] cannot do without.  [attention_settings] is
    unpacked as the arguments of the [MultiHeadAttention] layer, which
    requires [num_heads] and [key_dim] (as in
    [dict(num_heads=4, key_dim=32)]); [dense_settings] is unpacked as the
    arguments of each of the [num_dense_fc] [Dense] layers of the
    feedforward part, which require [units].  A missing required setting is
    an error at construction: the call that unpacks the dictionary raises
    [TypeError]. *)
Definition missing_setting (layer : string) (settings : kwargs) (required : list string)
  : option exn :=
  match List.find (fun name => match settings !! name with None => true | Some _ => false end)
                  required with
  | Some name => Some (TypeError (layer +:+ " missing required argument " +:+ name))
  | None => None
  end.

Definition attention_block_error (attention_settings : kwargs) (num_dense_fc : nat)
    (dense_settings : kwargs) : option exn :=
  match missing_setting "MultiHeadAttention" attention_settings ["num_heads"; "key_dim"] with
  | Some e => Some e
  | None =>
      match num_dense_fc with
      | 0 => None
      | S _ => missing_setting "Dense" dense_settings ["units"]
      end
  end.

Definition check_attention_block (attention_settings : kwargs) (num_dense_fc : nat)
    (dense_settings : kwargs) : Py unit :=
  match attention_block_error attention_settings num_dense_fc dense_settings with
  | Some e => raise e
  | None => mret tt
  end.

(** Modelled from the spec: the constructors of the attention blocks
    ([bayesflow.attention]) are external primitives; each comes to life,
    unpacks its settings into the layers it is made of, and keeps its
    arguments. *)
Definition SelfAttentionBlock_init (input_dim : nat) (attention_settings : kwargs)
    (num_dense_fc : nat) (dense_settings : kwargs) (use_layer_norm : bool)
  : Py SelfAttentionBlock :=
  i ← fresh;
  check_attention_block attention_settings num_dense_fc dense_settings;;
  mret {| sab_id := i; sab_input_dim := input_dim;
          sab_attention_settings := attention_settings;
          sab_num_dense_fc := num_dense_fc; sab_dense_settings := dense_settings;
          sab_use_layer_norm := use_layer_norm |}.

Definition InducedSelfAttentionBlock_init (input_dim : nat) (attention_settings : kwargs)
    (num_dense_fc : nat) (dense_settings : kwargs) (use_layer_norm : bool)
    (num_inducing_points : nat) : Py InducedSelfAttentionBlock :=
  i ← fresh;
  check_attention_block attention_settings num_dense_fc dense_settings;;
  mret {| isab_id := i; isab_input_dim := input_dim;
          isab_attention_settings := attention_settings;
          isab_num_dense_fc := num_dense_fc; isab_dense_settings := dense_settings;
          isab_use_layer_norm := use_layer_norm;
          isab_num_inducing_points := num_inducing_points |}.

Definition PoolingWithAttention_init (summary_dim : nat) (attention_settings : kwargs)
    (num_dense_fc : nat) (dense_settings : kwargs) (use_layer_norm : bool)
    (num_seeds : nat) : Py PoolingWithAttention :=
  i ← fresh;
  check_attention_block attention_settings num_dense_fc dense_settings;;
  mret {| pma_id := i; pma_summary_dim := summary_dim;
          pma_attention_settings := attention_settings;
          pma_num_dense_fc := num_dense_fc; pma_dense_settings := dense_settings;
          pma_use_layer_norm := use_layer_norm; pma_num_seeds := num_seeds |}.

(** [tf.keras.Model.__init__] with the remaining keyword arguments: the
    model object comes to life.  What Keras does with the keywords (name,
    dtype, ...) plays no part in the networks below. *)
Definition Model_init (kw : kwargs) : Py nat := fresh.

(** A block of the attention stack of a set transformer. *)
Inductive AttentionBlock :=
| SAB (b : SelfAttentionBlock)
| ISAB (b : InducedSelfAttentionBlock).

(** The forward pass of the primitive layers, at fixed parameter values.
    The [kwargs] argument is the [**kwargs] that [call] hands down. *)
Class Primitives (scalar : Type) := {
  Dense_call : Dense -> kwargs -> Tensor2 scalar -> Tensor2 scalar;
  LSTM_call : LSTM -> kwargs -> Tensor3 scalar -> Tensor2 scalar;
  MultiConv1D_call : MultiConv1D -> kwargs -> Tensor3 scalar -> Tensor3 scalar;
  EquivariantModule_call : EquivariantModule -> Tensor3 scalar -> Tensor3 scalar;
  InvariantModule_call : InvariantModule -> Tensor3 scalar -> Tensor2 scalar;
  SelfAttentionBlock_call : SelfAttentionBlock -> kwargs -> Tensor3 scalar -> Tensor3 scalar;
  InducedSelfAttentionBlock_call :
    InducedSelfAttentionBlock -> kwargs -> Tensor3 scalar -> Tensor3 scalar;
  PoolingWithAttention_call : PoolingWithAttention -> kwargs -> Tensor3 scalar -> Tensor2 scalar }.

Definition AttentionBlock_call {scalar} `{Primitives scalar}
    (b : AttentionBlock) (kw : kwargs) (x : Tensor3 scalar) : Tensor3 scalar :=
  match b with
  | SAB b => SelfAttentionBlock_call b kw x
  | ISAB b => InducedSelfAttentionBlock_call b kw x
  end.

(** ** [tensorflow.keras.models.Sequential]

    A list of layers; [add] appends; calling it feeds the input through the
    layers in order, and returns the input itself when there is no layer. *)

Definition Sequential (L : Type) : Type := list L.

Definition Sequential_add {L} (s : Sequential L) (layer : L) : Sequential L := s ++ [layer].

Definition Sequential_call {L T} (layer_call : L -> T -> T) (s : Sequential L) (x : T) : T :=
  fold_left (fun out layer => layer_call layer out) s x.

(** ** [bayesflow.default_settings]

    The table of defaults is not in this file of the repository; the
    networks are parametrised by it. *)
Record default_settings := {
  DEFAULT_SETTING_DENSE_INVARIANT : kwargs;
  DEFAULT_SETTING_MULTI_CONV : kwargs }.

(** ** Keyword arguments of a call that unpacks a dictionary

    A keyword takes the place of the parameter of its name, a parameter
    without keyword takes its default.  Counts and sizes being [nat], a
    value that is not a natural number is refused when it is bound. *)

Definition kw_nat (kw : kwargs) (name : string) (default : nat) : Py nat :=
  match kw !! name with
  | None => mret default
  | Some (PInt z) =>
      if decide (0 ≤ z)%Z then mret (Z.to_nat z)
      else raise (ValueError (name +:+ " must not be negative"))
  | Some _ => raise (TypeError (name +:+ " must be an integer"))
  end.

Definition kw_nat_required (kw : kwargs) (name : string) : Py nat :=
  match kw !! name with
  | None => raise (TypeError ("missing required argument " +:+ name))
  | Some _ => kw_nat kw name 0
  end.

Definition kw_nat_or_None (kw : kwargs) (name : string) : Py (option nat) :=
  match kw !! name with
  | None | Some PNone => mret None
  | Some _ => n ← kw_nat kw name 0; mret (Some n)
  end.

Definition kw_bool (kw : kwargs) (name : string) (default : bool) : Py bool :=
  match kw !! name with
  | None => mret default
  | Some (PBool b) => mret b
  | Some _ => raise (TypeError (name +:+ " must be a boolean"))
  end.

Definition kw_dict_required (kw : kwargs) (name : string) : Py kwargs :=
  match kw !! name with
  | Some (PDict d) => mret d
  | Some _ => raise (TypeError (name +:+ " must be a dictionary"))
  | None => raise (TypeError ("missing required argument " +:+ name))
  end.

Definition kw_dict_or_None (kw : kwargs) (name : string) : Py (option kwargs) :=
  match kw !! name with
  | None | Some PNone => mret None
  | Some (PDict d) => mret (Some d)
  | Some _ => raise (TypeError (name +:+ " must be a dictionary or None"))
  end.

(** The keywords that no named parameter takes. *)
Definition kw_rest (kw : kwargs) (names : list string) : kwargs := foldr delete kw names.

(** ** [class DeepSet(tf.keras.Model)] *)

Module DeepSet.

(** The parameters of [__init__]. *)
Record args := {
  summary_dim : nat;
  num_dense_s1 : nat;
  num_dense_s2 : nat;
  num_dense_s3 : nat;
  num_equiv : nat;
  dense_s1_args : option kwargs;
  dense_s2_args : option kwargs;
  dense_s3_args : option kwargs;
  pooling_fun : pyval;
  keras_kwargs : kwargs }.

(** The attributes of an instance. *)
Record t := {
  self_id : nat;
  equiv_layers : Sequential EquivariantModule;
  inv : InvariantModule;
  out_layer : Dense;
  self_summary_dim : nat }.

(** The defaults of the signature of [__init__]. *)
Definition default_args : args :=
  {| summary_dim := 10; num_dense_s1 := 2; num_dense_s2 := 2; num_dense_s3 := 2;
     num_equiv := 2; dense_s1_args := None; dense_s2_args := None;
     dense_s3_args := None; pooling_fun := PStr "mean"; keras_kwargs := ∅ |}.

(** Calling the class with an unpacked dictionary binds the keywords to
    the parameters. *)
Definition bind_args (kw : kwargs) : Py args :=
  a1 ← kw_nat kw "summary_dim" 10;
  a2 ← kw_nat kw "num_dense_s1" 2;
  a3 ← kw_nat kw "num_dense_s2" 2;
  a4 ← kw_nat kw "num_dense_s3" 2;
  a5 ← kw_nat kw "num_equiv" 2;
  a6 ← kw_dict_or_None kw "dense_s1_args";
  a7 ← kw_dict_or_None kw "dense_s2_args";
  a8 ← kw_dict_or_None kw "dense_s3_args";
  mret {| summary_dim := a1; num_dense_s1 := a2; num_dense_s2 := a3; num_dense_s3 := a4;
          num_equiv := a5; dense_s1_args := a6; dense_s2_args := a7; dense_s3_args := a8;
          pooling_fun := default (PStr "mean") (kw !! "pooling_fun");
          keras_kwargs :=
            kw_rest kw ["summary_dim"; "num_dense_s1"; "num_dense_s2"; "num_dense_s3";
                        "num_equiv"; "dense_s1_args"; "dense_s2_args"; "dense_s3_args";
                        "pooling_fun"] |}.

Section with_defaults.
Context (defaults : default_settings).

(** The settings dictionary prepared by [__init__]. *)
Definition settings (a : args) : kwargs :=
  list_to_map [
    ("num_dense_s1", PInt (Z.of_nat (num_dense_s1 a)));
    ("num_dense_s2", PInt (Z.of_nat (num_dense_s2 a)));
    ("num_dense_s3", PInt (Z.of_nat (num_dense_s3 a)));
    ("dense_s1_args",
      PDict (match dense_s1_args a with
             | None => DEFAULT_SETTING_DENSE_INVARIANT defaults | Some d => d end));
    ("dense_s2_args",
      PDict (match dense_s2_args a with
             | None => DEFAULT_SETTING_DENSE_INVARIANT defaults | Some d => d end));
    ("dense_s3_args",
      PDict (match dense_s3_args a with
             | None => DEFAULT_SETTING_DENSE_INVARIANT defaults | Some d => d end));
    ("pooling_fun", pooling_fun a) ].

Definition init (a : args) : Py t :=
  self ← Model_init (keras_kwargs a);
  let settings := settings a in
  equiv_layers ← list_comp (num_equiv a) (EquivariantModule_init settings);
  inv ← InvariantModule_init settings;
  out_layer ← Dense_init (summary_dim a) "linear";
  mret {| self_id := self; equiv_layers := equiv_layers; inv := inv;
          out_layer := out_layer; self_summary_dim := summary_dim a |}.
End with_defaults.

Definition call {scalar} `{Primitives scalar} (self : t) (x : Tensor3 scalar)
  : Tensor2 scalar :=
  let out_equiv := Sequential_call EquivariantModule_call (equiv_layers self) x in
  let out := Dense_call (out_layer self) ∅ (InvariantModule_call (inv self) out_equiv) in
  out.

End DeepSet.

(** ** [class InvariantNetwork(DeepSet)]

    The subclass adds no attribute and overrides no method but
    [__init_subclass__] and [__init__]; [call] is inherited.  [cls_name] is
    [cls.__name__], respectively [self.__class__.__name__].  Both methods
    warn and then hand over to the method of the base class;
    [__init_subclass__] of the base classes does nothing. *)

Module InvariantNetwork.

Definition init_subclass (cls_name : string) : Py unit :=
  warn (cls_name +:+ " will be deprecated at some point. Use ``DeepSet`` instead.")
       "DeprecationWarning".

Definition init (defaults : default_settings) (cls_name : string) (a : DeepSet.args)
  : Py DeepSet.t :=
  warn (cls_name +:+ " will be deprecated. at some point. Use ``DeepSet`` instead.")
       "DeprecationWarning";;
  DeepSet.init defaults a.

Definition call {scalar} `{Primitives scalar} (self : DeepSet.t) (x : Tensor3 scalar)
  : Tensor2 scalar :=
  DeepSet.call self x.

End InvariantNetwork.

(** ** [class SetTransformer(tf.keras.Model)] *)

Module SetTransformer.

Record args := {
  input_dim : nat;
  attention_settings : kwargs;
  dense_settings : kwargs;
  use_layer_norm : bool;
  num_dense_fc : nat;
  summary_dim : nat;
  num_attention_blocks : nat;
  num_inducing_points : option nat;
  num_seeds : nat;
  keras_kwargs : kwargs }.

Record t := {
  self_id : nat;
  attention_blocks : Sequential AttentionBlock;
  pooler : PoolingWithAttention }.

Definition bind_args (kw : kwargs) : Py args :=
  a1 ← kw_nat_required kw "input_dim";
  a2 ← kw_dict_required kw "attention_settings";
  a3 ← kw_dict_required kw "dense_settings";
  a4 ← kw_bool kw "use_layer_norm" true;
  a5 ← kw_nat kw "num_dense_fc" 2;
  a6 ← kw_nat kw "summary_dim" 10;
  a7 ← kw_nat kw "num_attention_blocks" 2;
  a8 ← kw_nat_or_None kw "num_inducing_points";
  a9 ← kw_nat kw "num_seeds" 1;
  mret {| input_dim := a1; attention_settings := a2; dense_settings := a3;
          use_layer_norm := a4; num_dense_fc := a5; summary_dim := a6;
          num_attention_blocks := a7; num_inducing_points := a8; num_seeds := a9;
          keras_kwargs :=
            kw_rest kw ["input_dim"; "attention_settings"; "dense_settings";
                        "use_layer_norm"; "num_dense_fc"; "summary_dim";
                        "num_attention_blocks"; "num_inducing_points"; "num_seeds"] |}.

(** The loop [for _ in range(num_attention_blocks)] of [__init__], with
    [n] rounds to go and the stack built so far.  The call of [add] belongs
    to the [else] branch: a round of the other branch constructs its block
    and leaves the stack as it is. *)
Fixpoint construct_blocks (a : args) (n : nat) (stack : Sequential AttentionBlock)
  : Py (Sequential AttentionBlock) :=
  match n with
  | 0 => mret stack
  | S n' =>
      match num_inducing_points a with
      | Some m =>
          block ← InducedSelfAttentionBlock_init (input_dim a) (attention_settings a)
                    (num_dense_fc a) (dense_settings a) (use_layer_norm a) m;
          construct_blocks a n' stack
      | None =>
          block ← SelfAttentionBlock_init (input_dim a) (attention_settings a)
                    (num_dense_fc a) (dense_settings a) (use_layer_norm a);
          construct_blocks a n' (Sequential_add stack (SAB block))
      end
  end.

Definition init (a : args) : Py t :=
  self ← Model_init (keras_kwargs a);
  attention_blocks ← construct_blocks a (num_attention_blocks a) [];
  pooler ← PoolingWithAttention_init (summary_dim a) (attention_settings a)
             (num_dense_fc a) (dense_settings a) (use_layer_norm a) (num_seeds a);
  mret {| self_id := self; attention_blocks := attention_blocks; pooler := pooler |}.

Definition call {scalar} `{Primitives scalar} (self : t) (kw : kwargs)
    (x : Tensor3 scalar) : Tensor2 scalar :=
  let out := Sequential_call (fun b => AttentionBlock_call b kw) (attention_blocks self) x in
  let out := PoolingWithAttention_call (pooler self) kw out in
  out.

End SetTransformer.

(** ** [class SequentialNetwork(tf.keras.Model)] *)

Module SequentialNetwork.

Record args := {
  summary_dim : nat;
  num_conv_layers : nat;
  lstm_units : nat;
  conv_settings : option kwargs;
  keras_kwargs : kwargs }.

Record t := {
  self_id : nat;
  net : Sequential MultiConv1D;
  lstm : LSTM;
  out_layer : Dense;
  self_summary_dim : nat }.

Definition default_args : args :=
  {| summary_dim := 10; num_conv_layers := 2; lstm_units := 128;
     conv_settings := None; keras_kwargs := ∅ |}.

Definition bind_args (kw : kwargs) : Py args :=
  a1 ← kw_nat kw "summary_dim" 10;
  a2 ← kw_nat kw "num_conv_layers" 2;
  a3 ← kw_nat kw "lstm_units" 128;
  a4 ← kw_dict_or_None kw "conv_settings";
  mret {| summary_dim := a1; num_conv_layers := a2; lstm_units := a3;
          conv_settings := a4;
          keras_kwargs :=
            kw_rest kw ["summary_dim"; "num_conv_layers"; "lstm_units"; "conv_settings"] |}.

Definition init (defaults : default_settings) (a : args) : Py t :=
  self ← Model_init (keras_kwargs a);
  let conv_settings :=
    match conv_settings a with
    | None => DEFAULT_SETTING_MULTI_CONV defaults
    | Some c => c
    end in
  net ← list_comp (num_conv_layers a) (MultiConv1D_init conv_settings);
  lstm ← LSTM_init (lstm_units a);
  out_layer ← Dense_init (summary_dim a) "linear";
  mret {| self_id := self; net := net; lstm := lstm; out_layer := out_layer;
          self_summary_dim := summary_dim a |}.

Definition call {scalar} `{Primitives scalar} (self : t) (kw : kwargs)
    (x : Tensor3 scalar) : Tensor2 scalar :=
  let out := Sequential_call (fun l => MultiConv1D_call l kw) (net self) x in
  let out := LSTM_call (lstm self) kw out in
  let out := Dense_call (out_layer self) kw out in
  out.

End SequentialNetwork.

(** ** Summary networks as objects and classes as callables

    An object of one of the four classes, with the class it is an instance
    of.  An instance of [InvariantNetwork] has the attributes of a
    [DeepSet]. *)

Inductive Network :=
| IsDeepSet (self : DeepSet.t)
| IsInvariantNetwork (self : DeepSet.t)
| IsSetTransformer (self : SetTransformer.t)
| IsSequentialNetwork (self : SequentialNetwork.t).

(** [isinstance(net, DeepSet)] *)
Definition isinstance_DeepSet (net : Network) : bool :=
  match net with
  | IsDeepSet _ | IsInvariantNetwork _ => true
  | _ => false
  end.

(** [type(net).__name__] *)
Definition class_name (net : Network) : string :=
  match net with
  | IsDeepSet _ => "DeepSet"
  | IsInvariantNetwork _ => "InvariantNetwork"
  | IsSetTransformer _ => "SetTransformer"
  | IsSequentialNetwork _ => "SequentialNetwork"
  end.

(** [net(x)] *)
Definition Network_call {scalar} `{Primitives scalar} (net : Network) (x : Tensor3 scalar)
  : Tensor2 scalar :=
  match net with
  | IsDeepSet self => DeepSet.call self x
  | IsInvariantNetwork self => InvariantNetwork.call self x
  | IsSetTransformer self => SetTransformer.call self ∅ x
  | IsSequentialNetwork self => SequentialNetwork.call self ∅ x
  end.

(** The identity of a summary network. *)
Definition Network_id (net : Network) : nat :=
  match net with
  | IsDeepSet self | IsInvariantNetwork self => DeepSet.self_id self
  | IsSetTransformer self => SetTransformer.self_id self
  | IsSequentialNetwork self => SequentialNetwork.self_id self
  end.

(** A class used as a callable: the keywords are bound, then [__init__]
    runs. *)
Definition DeepSet_cls (defaults : default_settings) (kw : kwargs) : Py Network :=
  a ← DeepSet.bind_args kw; self ← DeepSet.init defaults a; mret (IsDeepSet self).

Definition InvariantNetwork_cls (defaults : default_settings) (kw : kwargs) : Py Network :=
  a ← DeepSet.bind_args kw;
  self ← InvariantNetwork.init defaults "InvariantNetwork" a;
  mret (IsInvariantNetwork self).

Definition SetTransformer_cls (kw : kwargs) : Py Network :=
  a ← SetTransformer.bind_args kw; self ← SetTransformer.init a; mret (IsSetTransformer self).

Definition SequentialNetwork_cls (defaults : default_settings) (kw : kwargs) : Py Network :=
  a ← SequentialNetwork.bind_args kw;
  self ← SequentialNetwork.init defaults a;
  mret (IsSequentialNetwork self).

(** The warning that instantiating the class [InvariantNetwork] records. *)
Definition InvariantNetwork_deprecation : Warning :=
  {| w_category := "DeprecationWarning";
     w_message := "InvariantNetwork will be deprecated. at some point. Use ``DeepSet`` instead." |}.

(** A callable that returns a new object each time it is called: the
    object's identity is the one the allocator hands out at the call. *)
Definition allocates_fresh (network_type : kwargs -> Py Network) : Prop :=
  ∀ kw w w' net, network_type kw w = (w', inr net) →
    Network_id net = next_id w ∧ next_id w < next_id w'.

(** ** [class SplitNetwork(tf.keras.Model)] *)

Module SplitNetwork.

Record t (scalar : Type) := {
  self_id : nat;
  num_splits : nat;
  split_data_configurator : nat -> Tensor3 scalar -> Tensor3 scalar;
  networks : list Network }.

Arguments self_id {scalar} _.
Arguments num_splits {scalar} _.
Arguments split_data_configurator {scalar} _ _ _.
Arguments networks {scalar} _.

(** The defaults of the signature of [__init__]. *)
Definition default_network_type (defaults : default_settings) : kwargs -> Py Network :=
  InvariantNetwork_cls defaults.

Definition default_network_kwargs : kwargs := ∅.

Definition init {scalar} (num_splits : nat)
    (split_data_configurator : nat -> Tensor3 scalar -> Tensor3 scalar)
    (network_type : kwargs -> Py Network) (network_kwargs : kwargs) (keras_kwargs : kwargs)
  : Py (t scalar) :=
  self ← Model_init keras_kwargs;
  networks ← list_comp num_splits (network_type network_kwargs);
  mret {| self_id := self; num_splits := num_splits;
          split_data_configurator := split_data_configurator;
          networks := networks |}.

(** [[self.networks[i](self.split_data_configurator(i, x)) for i in indices]] *)
Fixpoint sub_outputs {scalar} `{Primitives scalar} (self : t scalar) (x : Tensor3 scalar)
    (indices : list nat) : exn + list (Tensor2 scalar) :=
  match indices with
  | [] => inr []
  | i :: indices' =>
      match networks self !! i with
      | None => inl IndexError
      | Some network =>
          let out_i := Network_call network (split_data_configurator self i x) in
          match sub_outputs self x indices' with
          | inl e => inl e
          | inr outs => inr (out_i :: outs)
          end
      end
  end.

Definition call {scalar} `{Primitives scalar} (self : t scalar) (x : Tensor3 scalar)
  : exn + Tensor2 scalar :=
  match sub_outputs self x (seq 0 (num_splits self)) with
  | inl e => inl e
  | inr out => tf_concat_last out
  end.

End SplitNetwork.

(** ** Contracts of the primitive layers

    What the summary networks rely on: the shape contract of each layer and,
    for the layers that act on sets, how the layer behaves when the set is
    reordered. *)

Section contracts.
Context {scalar : Type}.

(** [(batch, n, d) -> (batch, n, d')]: the element axis is kept. *)
Definition keeps_element_axis (f : Tensor3 scalar → Tensor3 scalar) : Prop :=
  ∀ x b n d, has_shape3 x b n d → ∃ d', has_shape3 (f x) b n d'.

(** [(batch, n, d) -> (batch, d')] for a set that is not empty. *)
Definition collapses_element_axis (g : Tensor3 scalar → Tensor2 scalar) : Prop :=
  ∀ x b n d, 1 ≤ n → has_shape3 x b n d → ∃ d', has_shape2 (g x) b d'.

(** [(batch, in_dim) -> (batch, units)] *)
Definition projects_to (units : nat) (g : Tensor2 scalar → Tensor2 scalar) : Prop :=
  ∀ t b s, has_shape2 t b s → has_shape2 (g t) b units.

(** [(batch, time, channels) -> (batch, time', channels')] *)
Definition keeps_batch_axis (f : Tensor3 scalar → Tensor3 scalar) : Prop :=
  ∀ x b t c, has_shape3 x b t c → ∃ t' c', has_shape3 (f x) b t' c'.

(** [(batch, time, channels) -> (batch, units)] *)
Definition final_state_of (units : nat) (g : Tensor3 scalar → Tensor2 scalar) : Prop :=
  ∀ x b t c, has_shape3 x b t c → has_shape2 (g x) b units.

(** [f(pi(x)) == pi(f(x))] *)
Definition permutation_equivariant (f : Tensor3 scalar → Tensor3 scalar) : Prop :=
  ∀ pi x b n d, is_perm pi n → has_shape3 x b n d →
    f (permute_set pi x) = permute_set pi (f x).

(** [g(pi(x)) == g(x)] *)
Definition permutation_invariant (g : Tensor3 scalar → Tensor2 scalar) : Prop :=
  ∀ pi x b n d, is_perm pi n → has_shape3 x b n d →
    g (permute_set pi x) = g x.
End contracts.

(** ** A backend over the integers

    An instance of the interface of the primitive layers with exact
    arithmetic, on which the networks run: the layers that act on a set
    shift every entry by the identity of the layer; the pooling layers sum
    the set; the dense layer sums the features; the recurrent layer reads
    the last time step. *)

Module ZBackend.

Definition total (row : list Z) : Z := foldr Z.add 0%Z row.

Definition shift (k : nat) (x : Tensor3 Z) : Tensor3 Z :=
  map (map (map (Z.add (Z.of_nat k)))) x.

Definition pool (width : nat) (x : Tensor3 Z) : Tensor2 Z :=
  map (fun set => replicate width (total (map total set))) x.

Definition project (width : nat) (t : Tensor2 Z) : Tensor2 Z :=
  map (fun row => replicate width (total row)) t.

Definition last_state (width : nat) (x : Tensor3 Z) : Tensor2 Z :=
  map (fun steps => replicate width (total (List.last steps []))) x.

#[global] Instance primitives : Primitives Z := {|
  Dense_call d _ t := project (dense_units d) t;
  LSTM_call l _ x := last_state (lstm_units l) x;
  MultiConv1D_call c _ x := shift (conv_id c) x;
  EquivariantModule_call m x := shift (equiv_id m) x;
  InvariantModule_call m x := pool 1 x;
  SelfAttentionBlock_call b _ x := shift (sab_id b) x;
  InducedSelfAttentionBlock_call b _ x := shift (isab_id b) x;
  PoolingWithAttention_call p _ x := pool (pma_num_seeds p * pma_summary_dim p) x |}.

Definition world0 : World := {| next_id := 0; warnings := [] |}.

Definition defaults0 : default_settings :=
  {| DEFAULT_SETTING_DENSE_INVARIANT := {[ "units" := PInt 64 ]};
     DEFAULT_SETTING_MULTI_CONV := {[ "min_kernel_size" := PInt 1 ]} |}.

(** Two sets of three observations with two features. *)
Definition x0 : Tensor3 Z :=
  [ [ [1; 2]; [3; 4]; [5; 6] ]; [ [0; 1]; [7; 7]; [2; 9] ] ]%Z.

(** The routing function of the docstring of [SplitNetwork], on integers:
    the first feature says which split an observation belongs to. *)
Definition split (i : nat) (x : Tensor3 Z) : Tensor3 Z :=
  map (map (fun e =>
    let selector := if decide (nth 0 e 0%Z = Z.of_nat i) then 1%Z else 0%Z in
    [selector; (nth 1 e 0 * selector)%Z])) x.

End ZBackend.

(** ** Objects that a summary network holds

    The objects whose trainable parameters are parameters of the network:
    the model and the layers that its constructor allocates, and a
    learnable pooling network that the caller hands in as [pooling_fun],
    which exists before the network does.  The settings of a deep set reach
    every equivariant module and the invariant module, and with them the
    pooling network. *)

Inductive object_ref :=
| Allocated (i : nat)
| Given (f : nat).

Definition pooling_fun_refs (settings : kwargs) : list object_ref :=
  match settings !! "pooling_fun" with
  | Some (PCallable f) => [Given f]
  | _ => []
  end.

Definition Pooler_refs (p : Pooler) : list object_ref :=
  match p with
  | PoolCustom f => [Given f]
  | _ => []
  end.

Definition EquivariantModule_object_ids (m : EquivariantModule) : list object_ref :=
  Allocated (equiv_id m) :: pooling_fun_refs (equiv_settings m).

Definition InvariantModule_object_ids (m : InvariantModule) : list object_ref :=
  Allocated (inv_id m) :: Pooler_refs (inv_pooler m).

Definition AttentionBlock_id (b : AttentionBlock) : nat :=
  match b with
  | SAB b => sab_id b
  | ISAB b => isab_id b
  end.

Definition DeepSet_object_ids (self : DeepSet.t) : list object_ref :=
  Allocated (DeepSet.self_id self) ::
  concat (map EquivariantModule_object_ids (DeepSet.equiv_layers self)) ++
  InvariantModule_object_ids (DeepSet.inv self) ++
  [Allocated (dense_id (DeepSet.out_layer self))].

Definition SetTransformer_object_ids (self : SetTransformer.t) : list object_ref :=
  Allocated (SetTransformer.self_id self) ::
  map (fun b => Allocated (AttentionBlock_id b)) (SetTransformer.attention_blocks self) ++
  [Allocated (pma_id (SetTransformer.pooler self))].

Definition SequentialNetwork_object_ids (self : SequentialNetwork.t) : list object_ref :=
  Allocated (SequentialNetwork.self_id self) ::
  map (fun l => Allocated (conv_id l)) (SequentialNetwork.net self) ++
  [Allocated (lstm_id (SequentialNetwork.lstm self));
   Allocated (dense_id (SequentialNetwork.out_layer self))].

Definition Network_object_ids (net : Network) : list object_ref :=
  match net with
  | IsDeepSet self | IsInvariantNetwork self => DeepSet_object_ids self
  | IsSetTransformer self => SetTransformer_object_ids self
  | IsSequentialNetwork self => SequentialNetwork_object_ids self
  end.




(** [(batch, n, d) -> (batch, width)] *)
Definition pools_to {scalar} (width : nat) (g : Tensor3 scalar → Tensor2 scalar) : Prop :=
  ∀ x b n d, has_shape3 x b n d → has_shape2 (g x) b width.

(** Two set transformers on which the properties are tried: one with
    vanilla blocks and three seeds, one with inducing points. *)
Definition vanilla_transformer_args : SetTransformer.args :=
  {| SetTransformer.input_dim := 2;
     SetTransformer.attention_settings := {[ "num_heads" := PInt 4; "key_dim" := PInt 32 ]};
     SetTransformer.dense_settings := {[ "units" := PInt 32 ]};
     SetTransformer.use_layer_norm := true; SetTransformer.num_dense_fc := 2;
     SetTransformer.summary_dim := 10; SetTransformer.num_attention_blocks := 2;
     SetTransformer.num_inducing_points := None; SetTransformer.num_seeds := 3;
     SetTransformer.keras_kwargs := ∅ |}.

Definition induced_transformer_args : SetTransformer.args :=
  {| SetTransformer.input_dim := 2;
     SetTransformer.attention_settings := {[ "num_heads" := PInt 4; "key_dim" := PInt 32 ]};
     SetTransformer.dense_settings := {[ "units" := PInt 32 ]};
     SetTransformer.use_layer_norm := true; SetTransformer.num_dense_fc := 2;
     SetTransformer.summary_dim := 10; SetTransformer.num_attention_blocks := 2;
     SetTransformer.num_inducing_points := Some 4; SetTransformer.num_seeds := 1;
     SetTransformer.keras_kwargs := ∅ |}.

(** A deep set without equivariant module and a sequential network without
    convolution block. *)
Definition deep_set_without_equiv_args : DeepSet.args :=
  {| DeepSet.summary_dim := 10; DeepSet.num_dense_s1 := 2; DeepSet.num_dense_s2 := 2;
     DeepSet.num_dense_s3 := 2; DeepSet.num_equiv := 0; DeepSet.dense_s1_args := None;
     DeepSet.dense_s2_args := None; DeepSet.dense_s3_args := None;
     DeepSet.pooling_fun := PStr "max"; DeepSet.keras_kwargs := ∅ |}.

Definition sequential_without_conv_args : SequentialNetwork.args :=
  {| SequentialNetwork.summary_dim := 10; SequentialNetwork.num_conv_layers := 0;
     SequentialNetwork.lstm_units := 128; SequentialNetwork.conv_settings := None;
     SequentialNetwork.keras_kwargs := ∅ |}.

(** The networks for sets, as opposed to the network for time series. *)
Definition is_set_network (net : Network) : bool :=
  match net with
  | IsSequentialNetwork _ => false
  | _ => true
  end.

(** The keywords of a small set transformer, for split networks of set
    transformers. *)
Definition transformer_kwargs : kwargs :=
  {[ "input_dim" := PInt 2; "num_attention_blocks" := PInt 1;
     "attention_settings" := PDict {[ "num_heads" := PInt 4; "key_dim" := PInt 32 ]};
     "dense_settings" := PDict {[ "units" := PInt 32 ]} ]}.

(** * Properties *)

(** ** Running constructions *)

Lemma list_comp_length {A} (body : Py A) n w w' xs :
  list_comp n body w = (w', inr xs) → length xs = n.
Proof.
  revert w w' xs. induction n as [|n IH]; intros w w' xs; simpl.
  - intros [= <- <-]. reflexivity.
  - unfold mbind, Py_bind. destruct (body w) as [w1 [e|x]]; [discriminate|].
    destruct (list_comp n body w1) as [w2 [e|ys]] eqn:E; [discriminate|].
    intros [= <- <-]. simpl. f_equal. eauto.
Qed.

(** A comprehension whose body allocates one object. *)
Lemma list_comp_fresh {A} (mk : nat → A) n w :
  list_comp n (i ← fresh; mret (mk i)) w =
  ({| next_id := next_id w + n; warnings := warnings w |},
   inr (map mk (seq (next_id w) n))).
Proof.
  revert w. induction n as [|n IH]; intros w; simpl.
  - destruct w. unfold mret, Py_ret. simpl. by rewrite Nat.add_0_r.
  - unfold mbind, Py_bind in *. simpl. rewrite IH. simpl.
    unfold mret, Py_ret. do 2 f_equal. lia.
Qed.
Lemma settings_pooling_fun defaults a :
  DeepSet.settings defaults a !! "pooling_fun" = Some (DeepSet.pooling_fun a).
Proof. reflexivity. Qed.

Lemma resolve_pooling_fun_run v w w0 :
  resolve_pooling_fun v w = (w, snd (resolve_pooling_fun v w0)).
Proof.
  unfold resolve_pooling_fun.
  destruct v as [[]|]; try reflexivity.
  destruct (String.eqb s "mean"); [reflexivity|].
  destruct (String.eqb s "max"); reflexivity.
Qed.

(** The run of [DeepSet.__init__]: the model, the equivariant modules, the
    invariant module and the output layer are allocated in this order, and
    the only failure is the one of the pooling choice. *)
Lemma DeepSet_init_run defaults a w :
  DeepSet.init defaults a w =
  let s := DeepSet.settings defaults a in
  match snd (resolve_pooling_fun (s !! "pooling_fun") w) with
  | inl e =>
      ({| next_id := next_id w + DeepSet.num_equiv a + 2; warnings := warnings w |}, inl e)
  | inr p =>
      ({| next_id := next_id w + DeepSet.num_equiv a + 3; warnings := warnings w |},
       inr {| DeepSet.self_id := next_id w;
              DeepSet.equiv_layers :=
                map (fun i => {| equiv_id := i; equiv_settings := s |})
                    (seq (S (next_id w)) (DeepSet.num_equiv a));
              DeepSet.inv :=
                {| inv_id := next_id w + DeepSet.num_equiv a + 1; inv_settings := s;
                   inv_pooler := p |};
              DeepSet.out_layer :=
                {| dense_id := next_id w + DeepSet.num_equiv a + 2;
                   dense_units := DeepSet.summary_dim a; dense_activation := "linear" |};
              DeepSet.self_summary_dim := DeepSet.summary_dim a |})
  end.
Proof.
  unfold DeepSet.init, Model_init, EquivariantModule_init, InvariantModule_init, Dense_init.
  unfold mbind at 1. unfold Py_bind at 1. simpl.
  unfold mbind at 1. unfold Py_bind at 1. rewrite list_comp_fresh. simpl.
  unfold mbind, Py_bind. simpl.
  rewrite (resolve_pooling_fun_run _ _ w).
  destruct (snd (resolve_pooling_fun _ w)); simpl.
  - do 2 f_equal. lia.
  - unfold mret, Py_ret. repeat f_equal; lia.
Qed.

(** The run does not read the warnings issued so far. *)
Lemma DeepSet_init_warnings defaults a w ws :
  DeepSet.init defaults a {| next_id := next_id w; warnings := ws |} =
  ({| next_id := next_id (fst (DeepSet.init defaults a w)); warnings := ws |},
   snd (DeepSet.init defaults a w)).
Proof.
  rewrite !DeepSet_init_run. cbv zeta.
  rewrite (resolve_pooling_fun_run _ _ w). simpl.
  rewrite (resolve_pooling_fun_run _ w w). simpl.
  destruct (snd (resolve_pooling_fun _ w)); reflexivity.
Qed.

Lemma DeepSet_init_keeps_warnings defaults a w :
  warnings (fst (DeepSet.init defaults a w)) = warnings w.
Proof.
  rewrite DeepSet_init_run. cbv zeta.
  destruct (snd (resolve_pooling_fun _ w)); reflexivity.
Qed.

(** ** Construction of a deep set *)

(** C10: whichever of [dense_s1_args], [dense_s2_args], [dense_s3_args] is
    [None] is replaced, in the settings dictionary that [DeepSet.__init__]
    prepares and hands to every equivariant module and to the invariant
    module, by the one default [DEFAULT_SETTING_DENSE_INVARIANT]; the
    arguments of the equivariant layers get this invariant-layer default
    too, so the three groups resolve [None] to the same dictionary. *)
Theorem DeepSet_dense_args_default defaults a w w' self :
  DeepSet.init defaults a w = (w', inr self) →
  let D := DEFAULT_SETTING_DENSE_INVARIANT defaults in
  let s := DeepSet.settings defaults a in
    s !! "dense_s1_args" = Some (PDict (default D (DeepSet.dense_s1_args a)))
  ∧ s !! "dense_s2_args" = Some (PDict (default D (DeepSet.dense_s2_args a)))
  ∧ s !! "dense_s3_args" = Some (PDict (default D (DeepSet.dense_s3_args a)))
  ∧ (DeepSet.dense_s1_args a = None → DeepSet.dense_s2_args a = None →
     DeepSet.dense_s3_args a = None →
       s !! "dense_s1_args" = Some (PDict D) ∧ s !! "dense_s2_args" = Some (PDict D)
     ∧ s !! "dense_s3_args" = Some (PDict D))
  ∧ inv_settings (DeepSet.inv self) = s
  ∧ Forall (fun m => equiv_settings m = s) (DeepSet.equiv_layers self).
Proof.
  intros Hinit D s. rewrite DeepSet_init_run in Hinit. cbv zeta in Hinit.
  destruct (snd (resolve_pooling_fun _ _)) as [e|p]; [discriminate|].
  injection Hinit as <- <-. simpl.
  split; [|split; [|split; [|split; [|split]]]].
  - subst s D. by destruct (DeepSet.dense_s1_args a) eqn:E; unfold DeepSet.settings; rewrite E.
  - subst s D. by destruct (DeepSet.dense_s2_args a) eqn:E; unfold DeepSet.settings; rewrite E.
  - subst s D. by destruct (DeepSet.dense_s3_args a) eqn:E; unfold DeepSet.settings; rewrite E.
  - intros E1 E2 E3. subst s D. unfold DeepSet.settings. rewrite E1, E2, E3. done.
  - reflexivity.
  - apply List.Forall_forall. intros m Hm. apply in_map_iff in Hm as (i & <- & _). reflexivity.
Qed.

Lemma DeepSet_dense_args_default_witness :
  ∃ w' self,
    DeepSet.init ZBackend.defaults0 DeepSet.default_args ZBackend.world0 = (w', inr self)
    ∧ DeepSet.settings ZBackend.defaults0 DeepSet.default_args !! "dense_s3_args"
      = Some (PDict (DEFAULT_SETTING_DENSE_INVARIANT ZBackend.defaults0))
    ∧ inv_settings (DeepSet.inv self) = DeepSet.settings ZBackend.defaults0 DeepSet.default_args.
Proof.
  edestruct (DeepSet_dense_args_default ZBackend.defaults0 DeepSet.default_args
               ZBackend.world0) as (_ & _ & H3 & _ & H5 & _).
  { vm_compute. reflexivity. }
  eexists _, _. split; [vm_compute; reflexivity|].
  split; [exact H3 | exact H5].
Defined.

(** C3: a [pooling_fun] string that is neither "mean" nor "max" makes
    [DeepSet.__init__] raise a [ConfigurationError]: no instance is
    returned, so nothing is left to fail at call time and no default
    pooling function is put in its place. *)
Theorem DeepSet_unknown_pooling_fun_raises defaults a w s :
  DeepSet.pooling_fun a = PStr s → s ≠ "mean" → s ≠ "max" →
  ∃ w' msg, DeepSet.init defaults a w = (w', inl (ConfigurationError msg)).
Proof.
  intros Hp Hmean Hmax. rewrite DeepSet_init_run. cbv zeta.
  rewrite settings_pooling_fun, Hp. unfold resolve_pooling_fun.
  apply String.eqb_neq in Hmean, Hmax. rewrite Hmean, Hmax. simpl.
  eexists _, _. reflexivity.
Qed.

Lemma DeepSet_unknown_pooling_fun_raises_witness :
  ∃ w' msg,
    DeepSet.init ZBackend.defaults0
      {| DeepSet.summary_dim := 10; DeepSet.num_dense_s1 := 2; DeepSet.num_dense_s2 := 2;
         DeepSet.num_dense_s3 := 2; DeepSet.num_equiv := 2; DeepSet.dense_s1_args := None;
         DeepSet.dense_s2_args := None; DeepSet.dense_s3_args := None;
         DeepSet.pooling_fun := PStr "invalid_name"; DeepSet.keras_kwargs := ∅ |}
      ZBackend.world0 = (w', inl (ConfigurationError msg)).
Proof.
  apply (DeepSet_unknown_pooling_fun_raises _ _ _ "invalid_name");
    [reflexivity | discriminate | discriminate].
Defined.

(** ** The deprecated alias *)

(** Instantiating the alias: the warning, then the run of [DeepSet.__init__]. *)
Lemma InvariantNetwork_init_run defaults cls_name a w :
  InvariantNetwork.init defaults cls_name a w =
  ({| next_id := next_id (fst (DeepSet.init defaults a w));
      warnings := warnings w ++
        [{| w_category := "DeprecationWarning";
            w_message :=
              cls_name +:+ " will be deprecated. at some point. Use ``DeepSet`` instead." |}] |},
   snd (DeepSet.init defaults a w)).
Proof.
  unfold InvariantNetwork.init, mbind, Py_bind, warn. simpl.
  apply (DeepSet_init_warnings defaults a w).
Qed.

(** C8: subclassing [InvariantNetwork] and instantiating it each record one
    [DeprecationWarning] and go on; apart from the warning, instantiation is
    the construction of a [DeepSet]: the same outcome (the same object with
    the same layers, hence the same parameters, or the same exception) and
    the same allocations; and the forward pass of the instance is the one
    of [DeepSet]. *)
Theorem InvariantNetwork_warns_and_delegates defaults cls_name a w :
  let deprecation msg :=
    {| w_category := "DeprecationWarning"; w_message := cls_name +:+ msg |} in
    InvariantNetwork.init_subclass cls_name w =
      ({| next_id := next_id w;
          warnings := warnings w ++
            [deprecation " will be deprecated at some point. Use ``DeepSet`` instead."] |},
       inr tt)
  ∧ snd (InvariantNetwork.init defaults cls_name a w) = snd (DeepSet.init defaults a w)
  ∧ next_id (fst (InvariantNetwork.init defaults cls_name a w))
    = next_id (fst (DeepSet.init defaults a w))
  ∧ warnings (fst (InvariantNetwork.init defaults cls_name a w))
    = warnings (fst (DeepSet.init defaults a w)) ++
        [deprecation " will be deprecated. at some point. Use ``DeepSet`` instead."]
  ∧ ∀ scalar (P : Primitives scalar) (self : DeepSet.t) (x : Tensor3 scalar),
      InvariantNetwork.call self x = DeepSet.call self x
    ∧ Network_call (IsInvariantNetwork self) x = Network_call (IsDeepSet self) x.
Proof.
  intros deprecation. split; [reflexivity|].
  rewrite InvariantNetwork_init_run, DeepSet_init_keeps_warnings. simpl.
  repeat split; reflexivity.
Qed.

(** ** Construction of a set transformer *)

(** The check of the settings reads the dictionaries only. *)
Lemma check_attention_block_run attention_settings num_dense_fc dense_settings w :
  check_attention_block attention_settings num_dense_fc dense_settings w =
  (w, match attention_block_error attention_settings num_dense_fc dense_settings with
      | Some e => inl e
      | None => inr tt
      end).
Proof.
  unfold check_attention_block.
  by destruct (attention_block_error attention_settings num_dense_fc dense_settings).
Qed.

(** The run of the loop of [SetTransformer.__init__] when the settings have
    what the blocks require: every round allocates a block; only the blocks
    of the vanilla branch reach the stack. *)
Lemma construct_blocks_run a n stack w :
  attention_block_error (SetTransformer.attention_settings a) (SetTransformer.num_dense_fc a)
    (SetTransformer.dense_settings a) = None →
  SetTransformer.construct_blocks a n stack w =
  ({| next_id := next_id w + n; warnings := warnings w |},
   inr (match SetTransformer.num_inducing_points a with
        | Some _ => stack
        | None =>
            stack ++
            map (fun i => SAB {| sab_id := i;
                                 sab_input_dim := SetTransformer.input_dim a;
                                 sab_attention_settings := SetTransformer.attention_settings a;
                                 sab_num_dense_fc := SetTransformer.num_dense_fc a;
                                 sab_dense_settings := SetTransformer.dense_settings a;
                                 sab_use_layer_norm := SetTransformer.use_layer_norm a |})
                (seq (next_id w) n)
        end)).
Proof.
  intros Hok. revert stack w. induction n as [|n IH]; intros stack w; simpl.
  - destruct w; simpl. rewrite Nat.add_0_r, app_nil_r.
    by destruct (SetTransformer.num_inducing_points a).
  - destruct (SetTransformer.num_inducing_points a) as [m|] eqn:E.
    + unfold mbind, Py_bind, InducedSelfAttentionBlock_init. simpl.
      unfold check_attention_block. rewrite Hok. simpl.
      rewrite IH. simpl. do 2 f_equal. lia.
    + unfold mbind, Py_bind, SelfAttentionBlock_init. simpl.
      unfold check_attention_block. rewrite Hok. simpl.
      rewrite IH. simpl. unfold Sequential_add. rewrite <- app_assoc. simpl.
      do 2 f_equal. lia.
Qed.

(** The run of [SetTransformer.__init__]: it fails, in the first block or,
    without block, in the pooler, when a required setting is missing. *)
Lemma SetTransformer_init_run a w :
  SetTransformer.init a w =
  match attention_block_error (SetTransformer.attention_settings a)
          (SetTransformer.num_dense_fc a) (SetTransformer.dense_settings a) with
  | Some e => ({| next_id := next_id w + 2; warnings := warnings w |}, inl e)
  | None =>
  ({| next_id := next_id w + SetTransformer.num_attention_blocks a + 2;
      warnings := warnings w |},
   inr {| SetTransformer.self_id := next_id w;
          SetTransformer.attention_blocks :=
            match SetTransformer.num_inducing_points a with
            | Some _ => []
            | None =>
                map (fun i =>
                       SAB {| sab_id := i;
                              sab_input_dim := SetTransformer.input_dim a;
                              sab_attention_settings := SetTransformer.attention_settings a;
                              sab_num_dense_fc := SetTransformer.num_dense_fc a;
                              sab_dense_settings := SetTransformer.dense_settings a;
                              sab_use_layer_norm := SetTransformer.use_layer_norm a |})
                    (seq (S (next_id w)) (SetTransformer.num_attention_blocks a))
            end;
          SetTransformer.pooler :=
            {| pma_id := next_id w + SetTransformer.num_attention_blocks a + 1;
               pma_summary_dim := SetTransformer.summary_dim a;
               pma_attention_settings := SetTransformer.attention_settings a;
               pma_num_dense_fc := SetTransformer.num_dense_fc a;
               pma_dense_settings := SetTransformer.dense_settings a;
               pma_use_layer_norm := SetTransformer.use_layer_norm a;
               pma_num_seeds := SetTransformer.num_seeds a |} |})
  end.
Proof.
  destruct (attention_block_error _ _ _) as [e|] eqn:Hok.
  - unfold SetTransformer.init, Model_init.
    unfold mbind at 1. unfold Py_bind at 1. simpl.
    destruct (SetTransformer.num_attention_blocks a) as [|n]; simpl.
    + unfold PoolingWithAttention_init, mbind, Py_bind. simpl.
      unfold check_attention_block. rewrite Hok. simpl. do 2 f_equal. lia.
    + destruct (SetTransformer.num_inducing_points a) as [m|].
      * unfold InducedSelfAttentionBlock_init, mbind, Py_bind. simpl.
        unfold check_attention_block. rewrite Hok. simpl. do 2 f_equal. lia.
      * unfold SelfAttentionBlock_init, mbind, Py_bind. simpl.
        unfold check_attention_block. rewrite Hok. simpl. do 2 f_equal. lia.
  - unfold SetTransformer.init, Model_init, PoolingWithAttention_init.
    unfold mbind at 1. unfold Py_bind at 1. simpl.
    unfold mbind at 1. unfold Py_bind at 1. rewrite (construct_blocks_run _ _ _ _ Hok). simpl.
    unfold mbind, Py_bind. simpl. unfold check_attention_block. rewrite Hok.
    unfold mret, Py_ret. simpl.
    destruct (SetTransformer.num_inducing_points a); repeat f_equal; lia.
Qed.

(** C1 (what the code does): when the settings have what the layers
    require, [__init__] returns a network whose attention stack
    [self.attention_blocks] has [num_attention_blocks] vanilla blocks when
    [num_inducing_points] is [None], and no block at all when it is not:
    the induced blocks are constructed and dropped. *)
Theorem SetTransformer_attention_stack a w :
  attention_block_error (SetTransformer.attention_settings a) (SetTransformer.num_dense_fc a)
    (SetTransformer.dense_settings a) = None →
  ∃ w' self,
    SetTransformer.init a w = (w', inr self)
    ∧ length (SetTransformer.attention_blocks self) =
        match SetTransformer.num_inducing_points a with
        | Some _ => 0
        | None => SetTransformer.num_attention_blocks a
        end
    ∧ Forall (fun b => ∃ sab, b = SAB sab) (SetTransformer.attention_blocks self).
Proof.
  intros Hok. rewrite SetTransformer_init_run, Hok.
  eexists _, _. split; [reflexivity|]. simpl.
  destruct (SetTransformer.num_inducing_points a); simpl.
  - split; [reflexivity | constructor].
  - split; [by rewrite length_map, length_seq|].
    apply List.Forall_forall. intros b Hb. apply in_map_iff in Hb as (i & <- & _). eauto.
Qed.

(** The stack at [attention_settings=dict(num_heads=4, key_dim=32)],
    [dense_settings=dict(units=32)], [num_attention_blocks=2],
    [num_inducing_points=4]: the construction succeeds, four objects are
    allocated after the model, and no block is in the stack. *)
Lemma SetTransformer_attention_stack_witness :
  ∃ w' self,
    SetTransformer.init induced_transformer_args ZBackend.world0 = (w', inr self)
    ∧ length (SetTransformer.attention_blocks self) = 0
    ∧ Forall (fun b => ∃ sab, b = SAB sab) (SetTransformer.attention_blocks self).
Proof.
  apply (SetTransformer_attention_stack induced_transformer_args ZBackend.world0).
  reflexivity.
Defined.

Example SetTransformer_induced_stack_is_empty :
  ∃ w' self,
    SetTransformer.init induced_transformer_args ZBackend.world0 = (w', inr self)
    ∧ SetTransformer.attention_blocks self = []
    ∧ next_id w' = 4.
Proof. eexists _, _. split; [vm_compute; reflexivity|]. split; reflexivity. Qed.

(** Without [key_dim] the first induced block cannot be constructed. *)
Example SetTransformer_without_key_dim_raises :
  ∃ w' msg,
    SetTransformer.init
      {| SetTransformer.input_dim := 2;
         SetTransformer.attention_settings := {[ "num_heads" := PInt 4 ]};
         SetTransformer.dense_settings := {[ "units" := PInt 32 ]};
         SetTransformer.use_layer_norm := true; SetTransformer.num_dense_fc := 2;
         SetTransformer.summary_dim := 10; SetTransformer.num_attention_blocks := 2;
         SetTransformer.num_inducing_points := Some 4; SetTransformer.num_seeds := 1;
         SetTransformer.keras_kwargs := ∅ |} ZBackend.world0 = (w', inl (TypeError msg)).
Proof. eexists _, _. vm_compute. reflexivity. Qed.

(** ** Shapes of the forward passes *)

Lemma Sequential_call_cons {L T} (layer_call : L → T → T) l (s : Sequential L) x :
  Sequential_call layer_call (l :: s) x = Sequential_call layer_call s (layer_call l x).
Proof. reflexivity. Qed.

(** A stack of layers that keep the element axis keeps it. *)
Lemma Sequential_keeps_element_axis {scalar L}
    (layer_call : L → Tensor3 scalar → Tensor3 scalar) (s : Sequential L) :
  (∀ l, keeps_element_axis (layer_call l)) →
  keeps_element_axis (Sequential_call layer_call s).
Proof.
  intros Hl. induction s as [|l s IH]; intros x b n d Hx.
  - exists d. exact Hx.
  - rewrite Sequential_call_cons. destruct (Hl l x b n d Hx) as [d1 H1]. eauto.
Qed.

Lemma Sequential_keeps_batch_axis {scalar L}
    (layer_call : L → Tensor3 scalar → Tensor3 scalar) (s : Sequential L) :
  (∀ l, keeps_batch_axis (layer_call l)) →
  keeps_batch_axis (Sequential_call layer_call s).
Proof.
  intros Hl. induction s as [|l s IH]; intros x b t c Hx.
  - exists t, c. exact Hx.
  - rewrite Sequential_call_cons. destruct (Hl l x b t c Hx) as (t1 & c1 & H1). eauto.
Qed.

(** C6: a [DeepSet] constructed with [summary_dim = S] and [num_equiv = k]
    holds exactly [k] equivariant modules, one invariant module and one
    dense output layer with [S] units and linear activation; [call] feeds
    the input through the [k] equivariant modules in order, then through
    the invariant module, then through the output layer; and when the
    primitive layers keep their shape contracts, an input of shape
    [(batch, n_obs, data_dim)] with [n_obs >= 1] gives an output of shape
    [(batch, S)], whatever [n_obs] is. *)
Theorem DeepSet_call_structure_and_shape {scalar} `{Primitives scalar} defaults a w w' self :
  (∀ m, keeps_element_axis (EquivariantModule_call m)) →
  (∀ m, collapses_element_axis (InvariantModule_call m)) →
  (∀ l kw, projects_to (dense_units l) (Dense_call l kw)) →
  DeepSet.init defaults a w = (w', inr self) →
    length (DeepSet.equiv_layers self) = DeepSet.num_equiv a
  ∧ dense_units (DeepSet.out_layer self) = DeepSet.summary_dim a
  ∧ dense_activation (DeepSet.out_layer self) = "linear"
  ∧ (∀ x : Tensor3 scalar,
       DeepSet.call self x =
       Dense_call (DeepSet.out_layer self) ∅
         (InvariantModule_call (DeepSet.inv self)
            (fold_left (fun out m => EquivariantModule_call m out)
                       (DeepSet.equiv_layers self) x)))
  ∧ (∀ (x : Tensor3 scalar) b n d, 1 ≤ n → has_shape3 x b n d →
       (∃ d', has_shape3 (fold_left (fun out m => EquivariantModule_call m out)
                                    (DeepSet.equiv_layers self) x) b n d')
       ∧ has_shape2 (DeepSet.call self x) b (DeepSet.summary_dim a)).
Proof.
  intros Hequiv Hinv Hdense Hinit.
  rewrite DeepSet_init_run in Hinit. cbv zeta in Hinit.
  destruct (snd (resolve_pooling_fun _ _)) as [e|p]; [discriminate|].
  injection Hinit as <- <-. simpl.
  split; [by rewrite length_map, length_seq|].
  split; [reflexivity|]. split; [reflexivity|]. split; [reflexivity|].
  intros x b n d Hn Hx.
  destruct (Sequential_keeps_element_axis EquivariantModule_call
              (map (fun i => {| equiv_id := i; equiv_settings := DeepSet.settings defaults a |})
                   (seq (S (next_id w)) (DeepSet.num_equiv a))) Hequiv x b n d Hx)
    as [d1 H1].
  split; [exists d1; exact H1|].
  unfold DeepSet.call. simpl.
  match goal with
  | |- has_shape2 (Dense_call ?l ?kw (InvariantModule_call ?m ?y)) _ _ =>
      destruct (Hinv m y b n d1 Hn H1) as [d2 H2]; exact (Hdense l kw _ b d2 H2)
  end.
Qed.

(** The run of [SequentialNetwork.__init__]. *)
Lemma SequentialNetwork_init_run defaults a w :
  SequentialNetwork.init defaults a w =
  ({| next_id := next_id w + SequentialNetwork.num_conv_layers a + 3;
      warnings := warnings w |},
   inr {| SequentialNetwork.self_id := next_id w;
          SequentialNetwork.net :=
            map (fun i => {| conv_id := i;
                             conv_settings :=
                               match SequentialNetwork.conv_settings a with
                               | None => DEFAULT_SETTING_MULTI_CONV defaults
                               | Some c => c
                               end |})
                (seq (S (next_id w)) (SequentialNetwork.num_conv_layers a));
          SequentialNetwork.lstm :=
            {| lstm_id := next_id w + SequentialNetwork.num_conv_layers a + 1;
               lstm_units := SequentialNetwork.lstm_units a;
               lstm_return_sequences := false |};
          SequentialNetwork.out_layer :=
            {| dense_id := next_id w + SequentialNetwork.num_conv_layers a + 2;
               dense_units := SequentialNetwork.summary_dim a;
               dense_activation := "linear" |};
          SequentialNetwork.self_summary_dim := SequentialNetwork.summary_dim a |}).
Proof.
  unfold SequentialNetwork.init, Model_init, MultiConv1D_init, LSTM_init, Dense_init.
  unfold mbind at 1. unfold Py_bind at 1. simpl.
  unfold mbind at 1. unfold Py_bind at 1. rewrite list_comp_fresh. simpl.
  unfold mbind, Py_bind, mret, Py_ret. simpl.
  repeat f_equal; lia.
Qed.

(** C7: a [SequentialNetwork] constructed with [summary_dim = S],
    [num_conv_layers = c] and [lstm_units = u] holds exactly [c]
    convolution blocks, one LSTM with [u] units that returns its final
    state only, and a dense output layer with [S] units and linear
    activation; [call] feeds the input through them in this order; and when
    the primitive layers keep their shape contracts, an input of shape
    [(batch, n_time_steps, n_time_series)] gives an output of shape
    [(batch, S)]. *)
Theorem SequentialNetwork_call_structure_and_shape {scalar} `{Primitives scalar}
    defaults a w :
  (∀ l kw, keeps_batch_axis (MultiConv1D_call l kw)) →
  (∀ l kw, lstm_return_sequences l = false → final_state_of (lstm_units l) (LSTM_call l kw)) →
  (∀ l kw, projects_to (dense_units l) (Dense_call l kw)) →
  ∃ w' self,
    SequentialNetwork.init defaults a w = (w', inr self)
  ∧ length (SequentialNetwork.net self) = SequentialNetwork.num_conv_layers a
  ∧ lstm_units (SequentialNetwork.lstm self) = SequentialNetwork.lstm_units a
  ∧ lstm_return_sequences (SequentialNetwork.lstm self) = false
  ∧ dense_units (SequentialNetwork.out_layer self) = SequentialNetwork.summary_dim a
  ∧ dense_activation (SequentialNetwork.out_layer self) = "linear"
  ∧ (∀ kw (x : Tensor3 scalar),
       SequentialNetwork.call self kw x =
       Dense_call (SequentialNetwork.out_layer self) kw
         (LSTM_call (SequentialNetwork.lstm self) kw
            (fold_left (fun out l => MultiConv1D_call l kw out)
                       (SequentialNetwork.net self) x)))
  ∧ (∀ kw (x : Tensor3 scalar) b t c, has_shape3 x b t c →
       has_shape2 (LSTM_call (SequentialNetwork.lstm self) kw
                     (fold_left (fun out l => MultiConv1D_call l kw out)
                                (SequentialNetwork.net self) x))
                  b (SequentialNetwork.lstm_units a)
       ∧ has_shape2 (SequentialNetwork.call self kw x) b (SequentialNetwork.summary_dim a)).
Proof.
  intros Hconv Hlstm Hdense. rewrite SequentialNetwork_init_run.
  eexists _, _. split; [reflexivity|]. simpl.
  split; [by rewrite length_map, length_seq|].
  do 4 (split; [reflexivity|]). split; [reflexivity|].
  intros kw x b t c Hx.
  match goal with |- context [fold_left _ ?layers x] => set (net := layers) end.
  destruct (Sequential_keeps_batch_axis (fun l => MultiConv1D_call l kw) net
              (fun l => Hconv l kw) x b t c Hx) as (t1 & c1 & H1).
  unfold Sequential_call in H1.
  match goal with
  | |- has_shape2 (LSTM_call ?l _ _) _ _ ∧ _ =>
      assert (H2 := Hlstm l kw eq_refl _ b t1 c1 H1)
  end.
  simpl in H2. split; [exact H2|].
  unfold SequentialNetwork.call, Sequential_call. simpl.
  exact (Hdense _ kw _ b _ H2).
Qed.

(** ** The integer backend keeps the contracts *)

Lemma ZBackend_shift_shape k x b n d :
  has_shape3 x b n d → has_shape3 (ZBackend.shift k x) b n d.
Proof.
  intros [Hb Hsets]. split; [by unfold ZBackend.shift; rewrite length_map|].
  unfold ZBackend.shift. apply List.Forall_map.
  eapply List.Forall_impl; [|exact Hsets]. intros set [Hn He].
  split; [by rewrite length_map|].
  apply List.Forall_map. eapply List.Forall_impl; [|exact He].
  intros e Hd. simpl. by rewrite length_map.
Qed.

Lemma ZBackend_shift_keeps_element_axis k : keeps_element_axis (ZBackend.shift k).
Proof. intros x b n d Hx. exists d. by apply ZBackend_shift_shape. Qed.

Lemma ZBackend_shift_keeps_batch_axis k : keeps_batch_axis (ZBackend.shift k).
Proof. intros x b t c Hx. exists t, c. by apply ZBackend_shift_shape. Qed.

Lemma ZBackend_pool_shape width x b n d :
  has_shape3 x b n d → has_shape2 (ZBackend.pool width x) b width.
Proof.
  intros [Hb _]. split; [by unfold ZBackend.pool; rewrite length_map|].
  unfold ZBackend.pool. apply List.Forall_map, List.Forall_forall.
  intros set _. simpl. apply length_replicate.
Qed.

Lemma ZBackend_pool_collapses width : collapses_element_axis (ZBackend.pool width).
Proof. intros x b n d _ Hx. exists width. by eapply ZBackend_pool_shape. Qed.

Lemma ZBackend_project_shape width : projects_to width (ZBackend.project width).
Proof.
  intros t b s [Hb _]. split; [by unfold ZBackend.project; rewrite length_map|].
  unfold ZBackend.project. apply List.Forall_map, List.Forall_forall.
  intros row _. simpl. apply length_replicate.
Qed.

Lemma ZBackend_last_state_shape width : final_state_of width (ZBackend.last_state width).
Proof.
  intros x b t c [Hb _]. split; [by unfold ZBackend.last_state; rewrite length_map|].
  unfold ZBackend.last_state. apply List.Forall_map, List.Forall_forall.
  intros steps _. simpl. apply length_replicate.
Qed.

Lemma DeepSet_call_structure_and_shape_witness :
  ∃ w' self,
    DeepSet.init ZBackend.defaults0 DeepSet.default_args ZBackend.world0 = (w', inr self)
    ∧ length (DeepSet.equiv_layers self) = 2
    ∧ has_shape3 ZBackend.x0 2 3 2
    ∧ has_shape2 (DeepSet.call self ZBackend.x0) 2 10.
Proof.
  edestruct (DeepSet_call_structure_and_shape (scalar := Z) ZBackend.defaults0
               DeepSet.default_args ZBackend.world0) as (Hlen & _ & _ & _ & Hshape).
  - intros m. apply ZBackend_shift_keeps_element_axis.
  - intros m. apply ZBackend_pool_collapses.
  - intros l kw. apply ZBackend_project_shape.
  - vm_compute. reflexivity.
  - assert (Hx : has_shape3 ZBackend.x0 2 3 2).
    { split; [reflexivity|]. repeat constructor. }
    eexists _, _. split; [vm_compute; reflexivity|].
    split; [exact Hlen|]. split; [exact Hx|].
    exact (proj2 (Hshape ZBackend.x0 2 3 2 (le_S _ _ (le_S _ _ (le_n 1))) Hx)).
Defined.

Lemma SequentialNetwork_call_structure_and_shape_witness :
  ∃ w' self,
    SequentialNetwork.init ZBackend.defaults0 SequentialNetwork.default_args ZBackend.world0
      = (w', inr self)
    ∧ length (SequentialNetwork.net self) = 2
    ∧ lstm_units (SequentialNetwork.lstm self) = 128
    ∧ has_shape2 (SequentialNetwork.call self ∅ ZBackend.x0) 2 10.
Proof.
  destruct (SequentialNetwork_call_structure_and_shape (scalar := Z) ZBackend.defaults0
              SequentialNetwork.default_args ZBackend.world0)
    as (w' & self & Hinit & Hlen & Hunits & _ & _ & _ & _ & Hshape).
  - intros l kw. apply ZBackend_shift_keeps_batch_axis.
  - intros l kw _. apply ZBackend_last_state_shape.
  - intros l kw. apply ZBackend_project_shape.
  - exists w', self. split; [exact Hinit|]. split; [exact Hlen|]. split; [exact Hunits|].
    refine (proj2 (Hshape ∅ ZBackend.x0 2 3 2 _)).
    split; [reflexivity|]. repeat constructor.
Defined.

(** ** Construction of a split network *)

(** A comprehension whose body always succeeds, establishes [P] for what it
    returns and takes the invariant [I] one step further. *)
Lemma list_comp_spec {A} (body : Py A) (P : A → Prop) (I : nat → World → Prop) :
  (∀ k w, I k w → ∃ w' x, body w = (w', inr x) ∧ P x ∧ I (S k) w') →
  ∀ n k w, I k w →
    ∃ w' xs, list_comp n body w = (w', inr xs) ∧ length xs = n ∧ Forall P xs ∧ I (k + n) w'.
Proof.
  intros Hbody. induction n as [|n IH]; intros k w Hw; simpl.
  - exists w, []. rewrite Nat.add_0_r. repeat split; [constructor | done].
  - destruct (Hbody k w Hw) as (w1 & x & Hx & HP & HI).
    destruct (IH (S k) w1 HI) as (w2 & xs & Hxs & Hlen & HPs & HI2).
    exists w2, (x :: xs). unfold mbind, Py_bind. rewrite Hx, Hxs. simpl.
    repeat split; [by rewrite Hlen | by constructor |].
    by replace (k + S n) with (S k + n) by lia.
Qed.

Lemma SplitNetwork_init_inv {scalar} n (cfg : nat → Tensor3 scalar → Tensor3 scalar)
    network_type network_kwargs kw w w' self :
  SplitNetwork.init n cfg network_type network_kwargs kw w = (w', inr self) →
    SplitNetwork.num_splits self = n
  ∧ SplitNetwork.split_data_configurator self = cfg
  ∧ length (SplitNetwork.networks self) = n.
Proof.
  unfold SplitNetwork.init, Model_init. unfold mbind at 1. unfold Py_bind at 1. simpl.
  unfold mbind, Py_bind.
  destruct (list_comp n _ _) as [w1 [e|nets]] eqn:E; [discriminate|].
  intros [= <- <-]. simpl. repeat split. by eapply list_comp_length.
Qed.

(** The default class called with no keyword. *)
Lemma InvariantNetwork_cls_default_run defaults w :
  ∃ w' self,
    InvariantNetwork_cls defaults ∅ w = (w', inr (IsInvariantNetwork self))
    ∧ snd (DeepSet.init defaults DeepSet.default_args w) = inr self
    ∧ warnings w' = warnings w ++ [InvariantNetwork_deprecation].
Proof.
  unfold InvariantNetwork_cls. unfold mbind at 1. unfold Py_bind at 1.
  change (DeepSet.bind_args ∅ w) with (w, inr DeepSet.default_args : exn + DeepSet.args).
  cbv beta iota.
  unfold mbind, Py_bind. rewrite InvariantNetwork_init_run.
  rewrite DeepSet_init_run. cbv zeta. simpl.
  eexists _, _. split; [reflexivity|]. split; reflexivity.
Qed.

(** The networks that the default of [network_type] builds: objects of
    the class [InvariantNetwork], the alias that subclasses [DeepSet], each
    with the attributes that [DeepSet()] builds, and one warning of the
    alias for each. *)
Lemma SplitNetwork_default_networks {scalar} defaults n
    (cfg : nat → Tensor3 scalar → Tensor3 scalar) kw w :
  ∃ w' self,
    SplitNetwork.init n cfg (SplitNetwork.default_network_type defaults)
      SplitNetwork.default_network_kwargs kw w = (w', inr self)
    ∧ length (SplitNetwork.networks self) = n
    ∧ Forall (fun net =>
        class_name net = "InvariantNetwork" ∧ isinstance_DeepSet net = true
        ∧ ∃ d w1, net = IsInvariantNetwork d
                  ∧ snd (DeepSet.init defaults DeepSet.default_args w1) = inr d)
        (SplitNetwork.networks self)
    ∧ warnings w' = warnings w ++ replicate n InvariantNetwork_deprecation.
Proof.
  unfold SplitNetwork.init, Model_init. unfold mbind at 1. unfold Py_bind at 1. simpl.
  set (w0 := {| next_id := S (next_id w); warnings := warnings w |}).
  destruct (list_comp_spec
    (SplitNetwork.default_network_type defaults SplitNetwork.default_network_kwargs)
    (fun net => class_name net = "InvariantNetwork" ∧ isinstance_DeepSet net = true
        ∧ ∃ d w1, net = IsInvariantNetwork d
                  ∧ snd (DeepSet.init defaults DeepSet.default_args w1) = inr d)
    (fun k w1 => warnings w1 = warnings w ++ replicate k InvariantNetwork_deprecation))
    with (n := n) (k := 0) (w := w0) as (w' & nets & Hrun & Hlen & Hall & Hwarn).
  - intros k w1 Hw1.
    destruct (InvariantNetwork_cls_default_run defaults w1) as (w2 & d & Hd & Hsame & Hw2).
    exists w2, (IsInvariantNetwork d). split; [exact Hd|].
    split; [by eauto 10|].
    rewrite Hw2, Hw1, replicate_S_end. by rewrite app_assoc.
  - simpl. by rewrite app_nil_r.
  - unfold mbind, Py_bind. rewrite Hrun. simpl.
    eexists _, _. split; [reflexivity|]. simpl. done.
Qed.

(** C4: when the caller does not pass [network_type], constructing
    [SplitNetwork(num_splits, f)] succeeds and builds [num_splits]
    sub-networks, each of them an instance of [DeepSet] (through the
    subclass [InvariantNetwork] that the signature names): an object with
    the attributes that [DeepSet()] with its default arguments builds, and
    whose forward pass is that of [DeepSet]. *)
Theorem SplitNetwork_default_builds_DeepSet_instances {scalar} defaults n
    (cfg : nat → Tensor3 scalar → Tensor3 scalar) kw w :
  ∃ w' self,
    SplitNetwork.init n cfg (SplitNetwork.default_network_type defaults)
      SplitNetwork.default_network_kwargs kw w = (w', inr self)
    ∧ SplitNetwork.num_splits self = n
    ∧ length (SplitNetwork.networks self) = n
    ∧ Forall (fun net =>
        isinstance_DeepSet net = true
        ∧ ∃ d w1,
            snd (DeepSet.init defaults DeepSet.default_args w1) = inr d
            ∧ Network_id net = DeepSet.self_id d
            ∧ ∀ scalar' (P : Primitives scalar') (x : Tensor3 scalar'),
                Network_call net x = DeepSet.call d x)
        (SplitNetwork.networks self).
Proof.
  destruct (SplitNetwork_default_networks defaults n cfg kw w)
    as (w' & self & Hinit & Hlen & Hall & _).
  exists w', self. split; [exact Hinit|].
  split; [exact (proj1 (SplitNetwork_init_inv _ _ _ _ _ _ _ _ Hinit))|].
  split; [exact Hlen|].
  eapply Forall_impl; [exact Hall|]. simpl.
  intros net (_ & Hinst & d & w1 & -> & Hd). split; [exact Hinst|].
  exists d, w1. split; [exact Hd|]. split; reflexivity.
Qed.

(** ** Permutation invariance *)

(** A stack of equivariant layers that keep the element axis is
    equivariant. *)
Lemma Sequential_equivariant {scalar L}
    (layer_call : L → Tensor3 scalar → Tensor3 scalar) (s : Sequential L) :
  (∀ l, keeps_element_axis (layer_call l)) →
  (∀ l, permutation_equivariant (layer_call l)) →
  permutation_equivariant (Sequential_call layer_call s).
Proof.
  intros Hkeep Hequiv. induction s as [|l s IH]; intros pi x b n d Hpi Hx.
  - reflexivity.
  - rewrite !Sequential_call_cons.
    rewrite (Hequiv l pi x b n d Hpi Hx).
    destruct (Hkeep l x b n d Hx) as [d1 H1].
    exact (IH pi _ b n d1 Hpi H1).
Qed.

(** C2: when the equivariant modules and the attention blocks are
    permutation equivariant and keep the element axis, and the invariant
    module and the attention pooling are permutation invariant, the output
    of every [DeepSet] and of every [SetTransformer] on an input of shape
    [(batch, n, d)] is the same after any reordering of the [n] axis (the
    same, hence also within any tolerance). *)
Theorem DeepSet_SetTransformer_permutation_invariant {scalar} `{Primitives scalar} :
  (∀ m, keeps_element_axis (EquivariantModule_call m)
        ∧ permutation_equivariant (EquivariantModule_call m)) →
  (∀ m, permutation_invariant (InvariantModule_call m)) →
  (∀ blk kw, keeps_element_axis (SelfAttentionBlock_call blk kw)
           ∧ permutation_equivariant (SelfAttentionBlock_call blk kw)) →
  (∀ blk kw, keeps_element_axis (InducedSelfAttentionBlock_call blk kw)
           ∧ permutation_equivariant (InducedSelfAttentionBlock_call blk kw)) →
  (∀ p kw, permutation_invariant (PoolingWithAttention_call p kw)) →
  ∀ pi (x : Tensor3 scalar) b n d, is_perm pi n → has_shape3 x b n d →
    (∀ self : DeepSet.t, DeepSet.call self (permute_set pi x) = DeepSet.call self x)
    ∧ (∀ (self : SetTransformer.t) kw,
         SetTransformer.call self kw (permute_set pi x) = SetTransformer.call self kw x).
Proof.
  intros Hequiv Hinv Hsab Hisab Hpool pi x b n d Hpi Hx. split.
  - intros self. unfold DeepSet.call. cbv zeta. f_equal.
    rewrite (Sequential_equivariant EquivariantModule_call (DeepSet.equiv_layers self)
               (fun m => proj1 (Hequiv m)) (fun m => proj2 (Hequiv m)) pi x b n d Hpi Hx).
    destruct (Sequential_keeps_element_axis EquivariantModule_call
                (DeepSet.equiv_layers self) (fun m => proj1 (Hequiv m)) x b n d Hx)
      as [d1 H1].
    exact (Hinv _ pi _ b n d1 Hpi H1).
  - intros self kw. unfold SetTransformer.call. cbv zeta.
    assert (Hkeep : ∀ blk, keeps_element_axis (fun y => AttentionBlock_call blk kw y)).
    { intros [blk|blk]; [apply (Hsab blk kw) | apply (Hisab blk kw)]. }
    assert (Heq : ∀ blk, permutation_equivariant (fun y => AttentionBlock_call blk kw y)).
    { intros [blk|blk]; [apply (Hsab blk kw) | apply (Hisab blk kw)]. }
    rewrite (Sequential_equivariant (fun blk => AttentionBlock_call blk kw)
               (SetTransformer.attention_blocks self) Hkeep Heq pi x b n d Hpi Hx).
    destruct (Sequential_keeps_element_axis (fun blk => AttentionBlock_call blk kw)
                (SetTransformer.attention_blocks self) Hkeep x b n d Hx) as [d1 H1].
    exact (Hpool _ kw pi _ b n d1 Hpi H1).
Qed.

Lemma map_nth_seq {A} (l : list A) d :
  map (fun i => nth i l d) (seq 0 (length l)) = l.
Proof.
  induction l as [|a l IH]; [reflexivity|].
  simpl. f_equal. rewrite <- seq_shift, map_map. exact IH.
Qed.

(** Reading a list through a permutation of its indices reorders it. *)
Lemma permute_Permutation {A} pi (l : list A) d :
  is_perm pi (length l) → Permutation (map (fun i => nth i l d) pi) l.
Proof.
  intros Hpi. eapply Permutation_trans; [apply Permutation_map, Hpi|].
  by rewrite map_nth_seq.
Qed.

Lemma ZBackend_total_Permutation l l' :
  Permutation l l' → ZBackend.total l = ZBackend.total l'.
Proof. induction 1; simpl in *; lia. Qed.

Lemma ZBackend_shift_equivariant k : permutation_equivariant (ZBackend.shift k).
Proof.
  intros pi x b n d _ _. unfold ZBackend.shift, permute_set.
  rewrite !map_map. apply map_ext. intros set.
  rewrite !map_map. apply map_ext. intros i.
  symmetry. exact (map_nth (map (Z.add (Z.of_nat k))) set [] i).
Qed.

Lemma ZBackend_pool_invariant width : permutation_invariant (ZBackend.pool width).
Proof.
  intros pi x b n d Hpi [_ Hsets]. unfold ZBackend.pool, permute_set.
  rewrite map_map. apply map_ext_in. intros set Hin.
  rewrite List.Forall_forall in Hsets. destruct (Hsets set Hin) as [Hn _].
  f_equal. apply ZBackend_total_Permutation, Permutation_map.
  apply permute_Permutation. by rewrite Hn.
Qed.

Lemma DeepSet_SetTransformer_permutation_invariant_witness :
  is_perm [2; 0; 1] 3 ∧ has_shape3 ZBackend.x0 2 3 2
  ∧ permute_set [2; 0; 1] ZBackend.x0
    = [ [ [5; 6]; [1; 2]; [3; 4] ]; [ [2; 9]; [0; 1]; [7; 7] ] ]%Z
  ∧ (∀ self : DeepSet.t,
       DeepSet.call self (permute_set [2; 0; 1] ZBackend.x0) = DeepSet.call self ZBackend.x0)
  ∧ (∀ (self : SetTransformer.t) kw,
       SetTransformer.call self kw (permute_set [2; 0; 1] ZBackend.x0)
       = SetTransformer.call self kw ZBackend.x0).
Proof.
  assert (Hpi : is_perm [2; 0; 1] 3).
  { unfold is_perm. simpl. 
    apply perm_trans with [0; 2; 1]; [apply perm_swap | apply perm_skip, perm_swap]. }
  assert (Hx : has_shape3 ZBackend.x0 2 3 2).
  { split; [reflexivity|]. repeat constructor. }
  split; [exact Hpi|]. split; [exact Hx|]. split; [reflexivity|].
  apply (DeepSet_SetTransformer_permutation_invariant (scalar := Z)) with (b := 2) (n := 3) (d := 2).
  - intros m. split; [apply ZBackend_shift_keeps_element_axis | apply ZBackend_shift_equivariant].
  - intros m. apply ZBackend_pool_invariant.
  - intros blk kw. split; [apply ZBackend_shift_keeps_element_axis | apply ZBackend_shift_equivariant].
  - intros blk kw. split; [apply ZBackend_shift_keeps_element_axis | apply ZBackend_shift_equivariant].
  - intros p kw. apply ZBackend_pool_invariant.
  - exact Hpi.
  - exact Hx.
Defined.

(** ** Forward pass of a split network *)

Lemma zip_with_app_rows {A} (a u : list (list A)) s1 s2 :
  length a = length u →
  Forall (fun row => length row = s1) a → Forall (fun row => length row = s2) u →
  Forall (fun row => length row = s1 + s2) (zip_with app a u).
Proof.
  revert u. induction a as [|r a IH]; intros [|r' u] Hlen Ha Hu; simpl in *;
    try discriminate; [constructor|].
  apply Forall_cons_1 in Ha as [Hr Ha]. apply Forall_cons_1 in Hu as [Hr' Hu].
  constructor; [by rewrite length_app, Hr, Hr'|]. apply IH; [lia | done | done].
Qed.

Lemma zip_with_app_nth {A} (a u : list (list A)) j :
  length a = length u →
  nth j (zip_with app a u) [] = nth j a [] ++ nth j u [].
Proof.
  revert u j. induction a as [|r a IH]; intros [|r' u] [|j] Hlen; simpl in *;
    try discriminate; try reflexivity.
  apply IH. lia.
Qed.

Lemma concat_pair_shape {scalar} (a u : Tensor2 scalar) b s1 s2 :
  has_shape2 a b s1 → has_shape2 u b s2 →
  concat_pair a u = inr (zip_with app a u) ∧ has_shape2 (zip_with app a u) b (s1 + s2).
Proof.
  intros [Hb Ha] [Hb' Hu]. unfold concat_pair.
  destruct (decide (length a = length u)) as [Hlen|Hne]; [|lia].
  split; [reflexivity|]. split; [|by apply zip_with_app_rows].
  rewrite length_zip_with. lia.
Qed.

(** Concatenating onto [a] values of width [S]: every row of the result is
    the row of [a] followed by the rows of the values, in their order. *)
Lemma concat_fold_shape {scalar} (rest : list (Tensor2 scalar)) (a : Tensor2 scalar) b s S :
  has_shape2 a b s → Forall (fun u => has_shape2 u b S) rest →
  ∃ out,
    fold_left (fun acc u => match acc with inl e => inl e | inr a => concat_pair a u end)
              rest (inr a) = inr out
    ∧ has_shape2 out b (s + length rest * S)
    ∧ ∀ j, nth j out [] = nth j a [] ++ concat (map (fun u => nth j u []) rest).
Proof.
  revert a s. induction rest as [|u rest IH]; intros a s Ha Hrest; simpl.
  - exists a. rewrite Nat.add_0_r. split; [done|]. split; [done|].
    intros j. by rewrite app_nil_r.
  - apply Forall_cons_1 in Hrest as [Hu Hrest].
    destruct (concat_pair_shape a u b s S Ha Hu) as [-> Hz].
    destruct (IH _ _ Hz Hrest) as (out & Hout & Hshape & Hrows).
    exists out. split; [exact Hout|].
    split; [by replace (s + (S + length rest * S)) with (s + S + length rest * S) by lia|].
    intros j. rewrite Hrows, zip_with_app_nth, <- app_assoc; [done|].
    destruct Ha, Hu. lia.
Qed.

Lemma tf_concat_last_shape {scalar} (values : list (Tensor2 scalar)) b S :
  values ≠ [] → Forall (fun u => has_shape2 u b S) values →
  ∃ out,
    tf_concat_last values = inr out
    ∧ has_shape2 out b (length values * S)
    ∧ ∀ j, nth j out [] = concat (map (fun u => nth j u []) values).
Proof.
  destruct values as [|v rest]; [done|]. intros _ Hall.
  apply Forall_cons_1 in Hall as [Hv Hrest]. simpl.
  destruct (concat_fold_shape rest v b S S Hv Hrest) as (out & Hout & Hshape & Hrows).
  exists out. split; [exact Hout|]. split; [exact Hshape|]. exact Hrows.
Qed.

(** The comprehension of [call] over indices that are in range. *)
Lemma sub_outputs_run {scalar} `{Primitives scalar} (self : SplitNetwork.t scalar) x indices :
  Forall (fun i => i < length (SplitNetwork.networks self)) indices →
  ∃ outs,
    SplitNetwork.sub_outputs self x indices = inr outs
    ∧ Forall2 (fun i out => ∃ net, SplitNetwork.networks self !! i = Some net
                 ∧ out = Network_call net (SplitNetwork.split_data_configurator self i x))
              indices outs.
Proof.
  induction indices as [|i indices IH]; intros Hin; simpl.
  - exists []. split; [reflexivity | constructor].
  - apply Forall_cons_1 in Hin as [Hi Hin].
    destruct (lookup_lt_is_Some_2 _ _ Hi) as [net Hnet]. rewrite Hnet.
    destruct (IH Hin) as (outs & -> & Hall).
    eexists. split; [reflexivity|]. constructor; [eauto | exact Hall].
Qed.

(** C5 (as the code has it): for a [SplitNetwork] with [num_splits >= 1],
    [call(x)] computes, for [i = 0, ..., num_splits - 1] in this order, the
    output of sub-network [i] on [split_data_configurator(i, x)], and
    returns their concatenation along the last axis: row [j] of the result
    is row [j] of output 0 followed by row [j] of output 1, and so on; when
    every sub-network returns shape [(batch, S)] the result has shape
    [(batch, num_splits * S)]. *)
Theorem SplitNetwork_call_concatenates {scalar} `{Primitives scalar}
    M cfg network_type network_kwargs kw w w' self (x : Tensor3 scalar) b S :
  1 ≤ M →
  SplitNetwork.init M cfg network_type network_kwargs kw w = (w', inr self) →
  (∀ i net, SplitNetwork.networks self !! i = Some net →
            has_shape2 (Network_call net (cfg i x)) b S) →
  ∃ outs out,
    Forall2 (fun i out_i => ∃ net, SplitNetwork.networks self !! i = Some net
                                   ∧ out_i = Network_call net (cfg i x))
            (seq 0 M) outs
    ∧ SplitNetwork.call self x = inr out
    ∧ has_shape2 out b (M * S)
    ∧ ∀ j, nth j out [] = concat (map (fun out_i => nth j out_i []) outs).
Proof.
  intros HM Hinit Hshape.
  destruct (SplitNetwork_init_inv _ _ _ _ _ _ _ _ Hinit) as (Hsplits & Hcfg & Hlen).
  destruct (sub_outputs_run self x (seq 0 M)) as (outs & Houts & Hall).
  { apply Forall_seq. intros i Hi. lia. }
  rewrite Hcfg in Hall.
  assert (Hlen_outs : length outs = M).
  { apply Forall2_length in Hall. by rewrite length_seq in Hall. }
  assert (Hshapes : Forall (fun u => has_shape2 u b S) outs).
  { apply Forall_lookup. intros k out_k Hk.
    destruct (Forall2_lookup_r _ _ _ _ _ Hall Hk) as (i & _ & net & Hnet & ->).
    eauto. }
  destruct (tf_concat_last_shape outs b S) as (out & Hout & Hout_shape & Hrows);
    [by destruct outs; simpl in *; [lia|] | exact Hshapes |].
  exists outs, out. split; [exact Hall|].
  unfold SplitNetwork.call. rewrite Hsplits, Houts.
  split; [exact Hout|]. split; [by rewrite <- Hlen_outs | exact Hrows].
Qed.

Lemma SplitNetwork_call_concatenates_witness :
  ∃ w' self outs out,
    SplitNetwork.init 2 ZBackend.split (DeepSet_cls ZBackend.defaults0) ∅ ∅ ZBackend.world0
      = (w', inr self)
    ∧ length outs = 2
    ∧ SplitNetwork.call self ZBackend.x0 = inr out
    ∧ has_shape2 out 2 (2 * 10)
    ∧ ∀ j, nth j out [] = concat (map (fun out_i => nth j out_i []) outs).
Proof.
  edestruct (SplitNetwork_call_concatenates (scalar := Z) 2 ZBackend.split
               (DeepSet_cls ZBackend.defaults0) ∅ ∅ ZBackend.world0)
    with (x := ZBackend.x0) (b := 2) (S := 10)
    as (outs & out & Hall & Hcall & Hshape & Hrows).
  - repeat constructor.
  - vm_compute. reflexivity.
  - intros i net Hnet.
    destruct i as [|[|i]]; vm_compute in Hnet; [| |discriminate Hnet];
      injection Hnet as <-; vm_compute; (split; [reflexivity | repeat constructor]).
  - eexists _, _, outs, out. split; [vm_compute; reflexivity|].
    split; [by apply Forall2_length in Hall|].
    split; [exact Hcall|]. split; [exact Hshape | exact Hrows].
Defined.

(** C5 (as stated) fails for [num_splits = 0]: the list of outputs is
    empty, [tf.concat] rejects it, and [call] raises where the claim has an
    output of shape [(batch, 0)]. *)
Lemma SplitNetwork_call_without_splits_raises :
  ∃ w' self,
    SplitNetwork.init 0 ZBackend.split (DeepSet_cls ZBackend.defaults0) ∅ ∅ ZBackend.world0
      = (w', inr self)
    ∧ SplitNetwork.networks self = []
    ∧ (∃ e, SplitNetwork.call self ZBackend.x0 = inl e)
    ∧ ¬ ∃ out, SplitNetwork.call self ZBackend.x0 = inr out ∧ has_shape2 out 2 (0 * 10).
Proof.
  eexists _, _. split; [vm_compute; reflexivity|].
  split; [reflexivity|]. split; [eexists; reflexivity|].
  intros (out & Hout & _). discriminate Hout.
Qed.

(** ** Independence of the splits *)

(** Binding keywords touches neither the allocator nor the warnings. *)
Lemma bind_same_world {A B} (m : Py A) (f : A → Py B) :
  (∀ w, fst (m w) = w) → (∀ a w, fst (f a w) = w) → ∀ w, fst ((m ≫= f) w) = w.
Proof.
  intros Hm Hf w. unfold mbind, Py_bind. specialize (Hm w).
  destruct (m w) as [w1 [e|a]]; simpl in *; [done|]. subst w1. apply Hf.
Qed.

Lemma kw_nat_same_world kw name default w : fst (kw_nat kw name default w) = w.
Proof.
  unfold kw_nat. destruct (kw !! name) as [[]|]; try reflexivity.
  by destruct (decide _).
Qed.

Lemma kw_nat_required_same_world kw name w : fst (kw_nat_required kw name w) = w.
Proof.
  unfold kw_nat_required. destruct (kw !! name); [apply kw_nat_same_world | reflexivity].
Qed.

Lemma kw_nat_or_None_same_world kw name w : fst (kw_nat_or_None kw name w) = w.
Proof.
  unfold kw_nat_or_None.
  destruct (kw !! name) as [[]|]; try reflexivity;
    (apply bind_same_world; [apply kw_nat_same_world | reflexivity]).
Qed.

Lemma kw_bool_same_world kw name default w : fst (kw_bool kw name default w) = w.
Proof. unfold kw_bool. by destruct (kw !! name) as [[]|]. Qed.

Lemma kw_dict_required_same_world kw name w : fst (kw_dict_required kw name w) = w.
Proof. unfold kw_dict_required. by destruct (kw !! name) as [[]|]. Qed.

Lemma kw_dict_or_None_same_world kw name w : fst (kw_dict_or_None kw name w) = w.
Proof. unfold kw_dict_or_None. by destruct (kw !! name) as [[]|]. Qed.

Ltac same_world :=
  repeat first
    [ apply kw_nat_same_world | apply kw_nat_required_same_world
    | apply kw_nat_or_None_same_world | apply kw_bool_same_world
    | apply kw_dict_required_same_world | apply kw_dict_or_None_same_world
    | reflexivity
    | apply bind_same_world; [intros ? | intros ? ?] ].

Lemma DeepSet_bind_args_same_world kw w : fst (DeepSet.bind_args kw w) = w.
Proof. unfold DeepSet.bind_args. same_world. Qed.

Lemma SetTransformer_bind_args_same_world kw w : fst (SetTransformer.bind_args kw w) = w.
Proof. unfold SetTransformer.bind_args. same_world. Qed.

Lemma SequentialNetwork_bind_args_same_world kw w :
  fst (SequentialNetwork.bind_args kw w) = w.
Proof. unfold SequentialNetwork.bind_args. same_world. Qed.

(** The four classes return a new object at every call. *)
Lemma DeepSet_cls_allocates_fresh defaults : allocates_fresh (DeepSet_cls defaults).
Proof.
  intros kw w w' net. unfold DeepSet_cls, mbind, Py_bind.
  pose proof (DeepSet_bind_args_same_world kw w) as Hw.
  destruct (DeepSet.bind_args kw w) as [w1 [e|a]]; [discriminate|]. simpl in Hw. subst w1.
  rewrite DeepSet_init_run. cbv zeta.
  destruct (snd (resolve_pooling_fun _ _)); [discriminate|].
  intros [= <- <-]. simpl. lia.
Qed.

Lemma InvariantNetwork_cls_allocates_fresh defaults :
  allocates_fresh (InvariantNetwork_cls defaults).
Proof.
  intros kw w w' net. unfold InvariantNetwork_cls, mbind, Py_bind.
  pose proof (DeepSet_bind_args_same_world kw w) as Hw.
  destruct (DeepSet.bind_args kw w) as [w1 [e|a]]; [discriminate|]. simpl in Hw. subst w1.
  rewrite InvariantNetwork_init_run, DeepSet_init_run. cbv zeta.
  destruct (snd (resolve_pooling_fun _ _)); [discriminate|].
  intros [= <- <-]. simpl. lia.
Qed.

Lemma SetTransformer_cls_allocates_fresh : allocates_fresh SetTransformer_cls.
Proof.
  intros kw w w' net. unfold SetTransformer_cls, mbind, Py_bind.
  pose proof (SetTransformer_bind_args_same_world kw w) as Hw.
  destruct (SetTransformer.bind_args kw w) as [w1 [e|a]]; [discriminate|].
  simpl in Hw. subst w1. rewrite SetTransformer_init_run.
  destruct (attention_block_error _ _ _); [discriminate|].
  intros [= <- <-]. simpl. lia.
Qed.

Lemma SequentialNetwork_cls_allocates_fresh defaults :
  allocates_fresh (SequentialNetwork_cls defaults).
Proof.
  intros kw w w' net. unfold SequentialNetwork_cls, mbind, Py_bind.
  pose proof (SequentialNetwork_bind_args_same_world kw w) as Hw.
  destruct (SequentialNetwork.bind_args kw w) as [w1 [e|a]]; [discriminate|].
  simpl in Hw. subst w1. rewrite SequentialNetwork_init_run.
  intros [= <- <-]. simpl. lia.
Qed.

Lemma SplitNetwork_init_run {scalar} n (cfg : nat → Tensor3 scalar → Tensor3 scalar)
    network_type network_kwargs kw w :
  SplitNetwork.init n cfg network_type network_kwargs kw w =
  match list_comp n (network_type network_kwargs)
          {| next_id := S (next_id w); warnings := warnings w |} with
  | (w1, inl e) => (w1, inl e)
  | (w1, inr nets) =>
      (w1, inr {| SplitNetwork.self_id := next_id w; SplitNetwork.num_splits := n;
                  SplitNetwork.split_data_configurator := cfg;
                  SplitNetwork.networks := nets |})
  end.
Proof.
  unfold SplitNetwork.init, Model_init. unfold mbind at 1. unfold Py_bind at 1.
  cbn [fresh next_id warnings]. unfold mbind, Py_bind.
  by destruct (list_comp n _ _) as [w1 [e|nets]].
Qed.





(** * Further properties of the networks *)

(** ** Set transformer *)

Lemma Sequential_keeps_element_axis_Forall {scalar L}
    (layer_call : L → Tensor3 scalar → Tensor3 scalar) (s : Sequential L) :
  Forall (fun l => keeps_element_axis (layer_call l)) s →
  keeps_element_axis (Sequential_call layer_call s).
Proof.
  induction s as [|l s IH]; intros Hall x b n d Hx.
  - exists d. exact Hx.
  - apply Forall_cons_1 in Hall as [Hl Hall]. rewrite Sequential_call_cons.
    destruct (Hl x b n d Hx) as [d1 H1]. exact (IH Hall _ b n d1 H1).
Qed.

(** X1: the output of a constructed [SetTransformer] on an input of shape
    [(batch, set_size, input_dim)] has shape
    [(batch, summary_dim * num_seeds)], when the vanilla attention blocks
    keep the element axis and the pooler returns its [num_seeds] seeds of
    [summary_dim] features flattened.  Nothing is asked of the induced
    blocks: none is in the stack. *)
Theorem SetTransformer_call_shape {scalar} `{Primitives scalar} a w w' self :
  (∀ blk kw, keeps_element_axis (SelfAttentionBlock_call blk kw)) →
  (∀ p kw, pools_to (pma_num_seeds p * pma_summary_dim p) (PoolingWithAttention_call p kw)) →
  SetTransformer.init a w = (w', inr self) →
  ∀ kw (x : Tensor3 scalar) b n d, has_shape3 x b n d →
    has_shape2 (SetTransformer.call self kw x) b
      (SetTransformer.summary_dim a * SetTransformer.num_seeds a).
Proof.
  intros Hsab Hpool Hinit kw x b n d Hx.
  rewrite SetTransformer_init_run in Hinit.
  destruct (attention_block_error _ _ _); [discriminate|]. injection Hinit as <- <-.
  unfold SetTransformer.call. cbn [SetTransformer.attention_blocks SetTransformer.pooler].
  match goal with
  | |- context [Sequential_call ?f ?s x] =>
      destruct (Sequential_keeps_element_axis_Forall f s) with (x := x) (b := b) (n := n) (d := d)
        as [d1 H1]; [|exact Hx|]
  end.
  - destruct (SetTransformer.num_inducing_points a); [constructor|].
    apply List.Forall_forall. intros blk Hblk.
    apply in_map_iff in Hblk as (i & <- & _). apply Hsab.
  - rewrite Nat.mul_comm.
    match goal with
    | |- has_shape2 (PoolingWithAttention_call ?p _ _) _ _ =>
        exact (Hpool p kw _ b n d1 H1)
    end.
Qed.

Lemma ZBackend_pool_pools_to width : pools_to width (ZBackend.pool width).
Proof. intros x b n d Hx. by eapply ZBackend_pool_shape. Qed.

Lemma SetTransformer_call_shape_witness :
  ∃ w' self,
    SetTransformer.init
vanilla_transformer_args ZBackend.world0 = (w', inr self)
    ∧ length (SetTransformer.attention_blocks self) = 2
    ∧ has_shape2 (SetTransformer.call self ∅ ZBackend.x0) 2 (10 * 3).
Proof.
  eexists _, _. split; [vm_compute; reflexivity|]. split; [reflexivity|].
  eapply (SetTransformer_call_shape (scalar := Z) vanilla_transformer_args ZBackend.world0)
    with (n := 3) (d := 2).
  - intros blk kw. apply ZBackend_shift_keeps_element_axis.
  - intros p kw. apply ZBackend_pool_pools_to.
  - vm_compute. reflexivity.
  - split; [reflexivity|]. repeat constructor.
Defined.

(** X2: when [num_inducing_points] is given, or when
    [num_attention_blocks] is 0, the attention stack of the constructed
    [SetTransformer] is empty and [call(x)] is the pooler applied to [x]
    itself. *)
Theorem SetTransformer_call_pooler_only {scalar} `{Primitives scalar} a w w' self :
  SetTransformer.init a w = (w', inr self) →
  is_Some (SetTransformer.num_inducing_points a) ∨ SetTransformer.num_attention_blocks a = 0 →
  ∀ kw (x : Tensor3 scalar),
    SetTransformer.call self kw x
    = PoolingWithAttention_call (SetTransformer.pooler self) kw x.
Proof.
  intros Hinit Hcase kw x.
  rewrite SetTransformer_init_run in Hinit.
  destruct (attention_block_error _ _ _); [discriminate|]. injection Hinit as <- <-.
  unfold SetTransformer.call. cbn [SetTransformer.attention_blocks SetTransformer.pooler].
  destruct Hcase as [[m Hm]|Hzero].
  - rewrite Hm. reflexivity.
  - rewrite Hzero. by destruct (SetTransformer.num_inducing_points a).
Qed.

Lemma SetTransformer_call_pooler_only_witness :
  ∃ w' self,
    SetTransformer.init
induced_transformer_args ZBackend.world0 = (w', inr self)
    ∧ SetTransformer.call self ∅ ZBackend.x0
      = PoolingWithAttention_call (SetTransformer.pooler self) ∅ ZBackend.x0.
Proof.
  eexists _, _. split; [vm_compute; reflexivity|].
  eapply (SetTransformer_call_pooler_only (scalar := Z) induced_transformer_args ZBackend.world0).
  - vm_compute. reflexivity.
  - left. eexists. reflexivity.
Defined.

(** X3: in a constructed [SetTransformer] every block of the stack is a
    vanilla self-attention block built from the same [input_dim],
    [attention_settings], [num_dense_fc], [dense_settings] and
    [use_layer_norm], and the pooler is built from [summary_dim],
    [num_seeds] and the same four settings as the blocks. *)
Theorem SetTransformer_layers_share_settings a w w' self :
  SetTransformer.init a w = (w', inr self) →
  Forall (fun blk => ∃ b, blk = SAB b
            ∧ sab_input_dim b = SetTransformer.input_dim a
            ∧ sab_attention_settings b = SetTransformer.attention_settings a
            ∧ sab_num_dense_fc b = SetTransformer.num_dense_fc a
            ∧ sab_dense_settings b = SetTransformer.dense_settings a
            ∧ sab_use_layer_norm b = SetTransformer.use_layer_norm a)
         (SetTransformer.attention_blocks self)
  ∧ pma_summary_dim (SetTransformer.pooler self) = SetTransformer.summary_dim a
  ∧ pma_num_seeds (SetTransformer.pooler self) = SetTransformer.num_seeds a
  ∧ pma_attention_settings (SetTransformer.pooler self) = SetTransformer.attention_settings a
  ∧ pma_num_dense_fc (SetTransformer.pooler self) = SetTransformer.num_dense_fc a
  ∧ pma_dense_settings (SetTransformer.pooler self) = SetTransformer.dense_settings a
  ∧ pma_use_layer_norm (SetTransformer.pooler self) = SetTransformer.use_layer_norm a.
Proof.
  intros Hinit. rewrite SetTransformer_init_run in Hinit.
  destruct (attention_block_error _ _ _); [discriminate|]. injection Hinit as <- <-.
  cbn [SetTransformer.attention_blocks SetTransformer.pooler].
  split; [|repeat split].
  destruct (SetTransformer.num_inducing_points a); [constructor|].
  apply List.Forall_forall. intros blk Hblk.
  apply in_map_iff in Hblk as (i & <- & _). eexists. repeat split.
Qed.

Lemma SetTransformer_layers_share_settings_witness :
  ∃ w' self,
    SetTransformer.init
vanilla_transformer_args ZBackend.world0 = (w', inr self)
    ∧ length (SetTransformer.attention_blocks self) = 2
    ∧ pma_attention_settings (SetTransformer.pooler self)
      = {[ "num_heads" := PInt 4; "key_dim" := PInt 32 ]}.
Proof.
  eexists _, _. split; [vm_compute; reflexivity|]. split; [reflexivity|].
  edestruct (SetTransformer_layers_share_settings vanilla_transformer_args ZBackend.world0)
    as (_ & _ & _ & Hatt & _); [vm_compute; reflexivity|].
  exact Hatt.
Defined.

(** ** Sequential network and deep set: settings and empty stacks *)

(** X4: every convolution block of a constructed [SequentialNetwork] is
    built from the same settings: [conv_settings] when it is given, the
    default [DEFAULT_SETTING_MULTI_CONV] when it is [None]. *)
Theorem SequentialNetwork_conv_settings_default defaults a w w' self :
  SequentialNetwork.init defaults a w = (w', inr self) →
  Forall (fun l => conv_settings l =
            default (DEFAULT_SETTING_MULTI_CONV defaults) (SequentialNetwork.conv_settings a))
         (SequentialNetwork.net self).
Proof.
  intros Hinit. rewrite SequentialNetwork_init_run in Hinit. injection Hinit as <- <-.
  cbn [SequentialNetwork.net]. apply List.Forall_forall. intros l Hl.
  apply in_map_iff in Hl as (i & <- & _). simpl.
  by destruct (SequentialNetwork.conv_settings a).
Qed.

Lemma SequentialNetwork_conv_settings_default_witness :
  ∃ w' self,
    SequentialNetwork.init ZBackend.defaults0 SequentialNetwork.default_args ZBackend.world0
      = (w', inr self)
    ∧ length (SequentialNetwork.net self) = 2
    ∧ Forall (fun l => conv_settings l = DEFAULT_SETTING_MULTI_CONV ZBackend.defaults0)
             (SequentialNetwork.net self).
Proof.
  eexists _, _. split; [vm_compute; reflexivity|]. split; [reflexivity|].
  eapply (SequentialNetwork_conv_settings_default ZBackend.defaults0
            SequentialNetwork.default_args ZBackend.world0).
  vm_compute. reflexivity.
Defined.

(** X5: a [DeepSet] constructed with [num_equiv = 0] has no equivariant
    module, and [call(x)] is the output layer applied to the invariant
    module applied to [x] itself. *)
Theorem DeepSet_without_equivariant_layers {scalar} `{Primitives scalar}
    defaults a w w' self :
  DeepSet.init defaults a w = (w', inr self) →
  DeepSet.num_equiv a = 0 →
  DeepSet.equiv_layers self = []
  ∧ ∀ x : Tensor3 scalar,
      DeepSet.call self x
      = Dense_call (DeepSet.out_layer self) ∅ (InvariantModule_call (DeepSet.inv self) x).
Proof.
  intros Hinit Hzero. rewrite DeepSet_init_run in Hinit. cbv zeta in Hinit.
  destruct (snd (resolve_pooling_fun _ _)) as [e|p]; [discriminate|].
  injection Hinit as <- <-. rewrite Hzero. split; reflexivity.
Qed.

Lemma DeepSet_without_equivariant_layers_witness :
  ∃ w' self,
    DeepSet.init ZBackend.defaults0
deep_set_without_equiv_args ZBackend.world0 = (w', inr self)
    ∧ DeepSet.equiv_layers self = []
    ∧ ∀ x : Tensor3 Z,
        DeepSet.call self x
        = Dense_call (DeepSet.out_layer self) ∅ (InvariantModule_call (DeepSet.inv self) x).
Proof.
  eexists _, _. split; [vm_compute; reflexivity|].
  eapply (DeepSet_without_equivariant_layers (scalar := Z) ZBackend.defaults0
            deep_set_without_equiv_args ZBackend.world0);
    [vm_compute; reflexivity | reflexivity].
Defined.

(** X6: a [SequentialNetwork] constructed with [num_conv_layers = 0] has
    no convolution block, and [call(x)] is the output layer applied to the
    LSTM applied to [x] itself. *)
Theorem SequentialNetwork_without_conv_layers {scalar} `{Primitives scalar}
    defaults a w w' self :
  SequentialNetwork.init defaults a w = (w', inr self) →
  SequentialNetwork.num_conv_layers a = 0 →
  SequentialNetwork.net self = []
  ∧ ∀ kw (x : Tensor3 scalar),
      SequentialNetwork.call self kw x
      = Dense_call (SequentialNetwork.out_layer self) kw
          (LSTM_call (SequentialNetwork.lstm self) kw x).
Proof.
  intros Hinit Hzero. rewrite SequentialNetwork_init_run in Hinit.
  injection Hinit as <- <-. rewrite Hzero. split; reflexivity.
Qed.

Lemma SequentialNetwork_without_conv_layers_witness :
  ∃ w' self,
    SequentialNetwork.init ZBackend.defaults0
sequential_without_conv_args ZBackend.world0 = (w', inr self)
    ∧ SequentialNetwork.net self = []
    ∧ ∀ kw (x : Tensor3 Z),
        SequentialNetwork.call self kw x
        = Dense_call (SequentialNetwork.out_layer self) kw
            (LSTM_call (SequentialNetwork.lstm self) kw x).
Proof.
  eexists _, _. split; [vm_compute; reflexivity|].
  eapply (SequentialNetwork_without_conv_layers (scalar := Z) ZBackend.defaults0
            sequential_without_conv_args ZBackend.world0);
    [vm_compute; reflexivity | reflexivity].
Defined.

(** ** Ownership of objects *)







(** A pooling network handed in as [pooling_fun] is among the objects of
    the deep set. *)
Lemma DeepSet_init_holds_pooling_network defaults a w w' self f :
  DeepSet.pooling_fun a = PCallable f →
  DeepSet.init defaults a w = (w', inr self) →
  Given f ∈ DeepSet_object_ids self.
Proof.
  intros Hf Hinit. rewrite DeepSet_init_run in Hinit. cbv zeta in Hinit.
  rewrite settings_pooling_fun, Hf in Hinit. simpl in Hinit.
  injection Hinit as <- <-. unfold DeepSet_object_ids, InvariantModule_object_ids. simpl.
  apply elem_of_cons. right. apply elem_of_app. right.
  apply elem_of_cons. right. apply elem_of_cons. by left.
Qed.



(** The pooling function that the keywords bind. *)
Lemma DeepSet_bind_args_pooling_fun kw w w' a :
  DeepSet.bind_args kw w = (w', inr a) →
  DeepSet.pooling_fun a = default (PStr "mean") (kw !! "pooling_fun").
Proof.
  unfold DeepSet.bind_args, mbind, Py_bind.
  repeat match goal with
         | |- context [kw_nat ?k ?n ?d ?w0] =>
             destruct (kw_nat k n d w0) as [? [?|?]]; [discriminate|]
         | |- context [kw_dict_or_None ?k ?n ?w0] =>
             destruct (kw_dict_or_None k n w0) as [? [?|?]]; [discriminate|]
         end.
  intros [= <- <-]. reflexivity.
Qed.












(** ** Split network: construction and failures *)

Lemma concat_fold_not_IndexError {scalar} (rest : list (Tensor2 scalar)) acc :
  acc ≠ inl IndexError →
  fold_left (fun acc u => match acc with inl e => inl e | inr a => concat_pair a u end)
            rest acc ≠ inl IndexError.
Proof.
  revert acc. induction rest as [|u rest IH]; intros acc Hacc; simpl; [exact Hacc|].
  apply IH. destruct acc as [e|a]; [exact Hacc|].
  unfold concat_pair. by destruct (decide _).
Qed.

Lemma tf_concat_last_not_IndexError {scalar} (values : list (Tensor2 scalar)) :
  tf_concat_last values ≠ inl IndexError.
Proof.
  destruct values as [|v rest]; simpl; [discriminate|].
  by apply concat_fold_not_IndexError.
Qed.

(** X9: construction leaves as many sub-networks as [num_splits], so that
    every index that [call] uses is in range: [call] computes one output
    per split and never raises [IndexError]. *)
Theorem SplitNetwork_call_indices_in_range {scalar} `{Primitives scalar} n
    (cfg : nat → Tensor3 scalar → Tensor3 scalar) network_type network_kwargs kw w w' self :
  SplitNetwork.init n cfg network_type network_kwargs kw w = (w', inr self) →
  length (SplitNetwork.networks self) = SplitNetwork.num_splits self
  ∧ ∀ x, (∃ outs, SplitNetwork.sub_outputs self x (seq 0 (SplitNetwork.num_splits self))
                    = inr outs
                  ∧ length outs = SplitNetwork.num_splits self)
         ∧ SplitNetwork.call self x ≠ inl IndexError.
Proof.
  intros Hinit.
  destruct (SplitNetwork_init_inv _ _ _ _ _ _ _ _ Hinit) as (Hsplits & _ & Hlen).
  split; [lia|]. intros x.
  destruct (sub_outputs_run self x (seq 0 (SplitNetwork.num_splits self)))
    as (outs & Houts & Hall).
  { apply Forall_seq. intros i Hi. lia. }
  split.
  - exists outs. split; [exact Houts|].
    apply Forall2_length in Hall. by rewrite length_seq in Hall.
  - unfold SplitNetwork.call. rewrite Houts. apply tf_concat_last_not_IndexError.
Qed.

Lemma SplitNetwork_call_indices_in_range_witness :
  ∃ w' self,
    SplitNetwork.init 2 ZBackend.split SetTransformer_cls transformer_kwargs ∅ ZBackend.world0
      = (w', inr self)
    ∧ length (SplitNetwork.networks self) = 2
    ∧ ∀ x, SplitNetwork.call self x ≠ inl IndexError.
Proof.
  edestruct (SplitNetwork_call_indices_in_range (scalar := Z) 2 ZBackend.split
               SetTransformer_cls transformer_kwargs ∅ ZBackend.world0) as (_ & Hcall).
  - vm_compute. reflexivity.
  - eexists _, _. split; [vm_compute; reflexivity|]. split; [reflexivity|].
    intros x. exact (proj2 (Hcall x)).
Defined.

(** X10: [network_type] is called once per split.  When its first call
    raises, the construction of a [SplitNetwork] with at least one split
    raises the same exception; with no split the callable is not called and
    the construction succeeds with an empty list of networks. *)
Theorem SplitNetwork_init_propagates_failure {scalar} n
    (cfg : nat → Tensor3 scalar → Tensor3 scalar) network_type network_kwargs kw w w1 e :
  network_type network_kwargs {| next_id := S (next_id w); warnings := warnings w |}
    = (w1, inl e) →
  SplitNetwork.init (S n) cfg network_type network_kwargs kw w = (w1, inl e)
  ∧ ∃ self,
      SplitNetwork.init 0 cfg network_type network_kwargs kw w
        = ({| next_id := S (next_id w); warnings := warnings w |}, inr self)
      ∧ SplitNetwork.networks self = [].
Proof.
  intros Hfail. split.
  - rewrite SplitNetwork_init_run. simpl. unfold mbind, Py_bind. by rewrite Hfail.
  - rewrite SplitNetwork_init_run. simpl. eexists. split; reflexivity.
Qed.

Lemma SplitNetwork_init_propagates_failure_witness :
  ∃ w1 msg,
    SetTransformer_cls SplitNetwork.default_network_kwargs
      {| next_id := 1; warnings := [] |} = (w1, inl (TypeError msg))
    ∧ SplitNetwork.init 2 ZBackend.split SetTransformer_cls
        SplitNetwork.default_network_kwargs ∅ ZBackend.world0 = (w1, inl (TypeError msg)).
Proof.
  eexists _, _. split; [vm_compute; reflexivity|].
  eapply (proj1 (SplitNetwork_init_propagates_failure (scalar := Z) 1 ZBackend.split
                   SetTransformer_cls SplitNetwork.default_network_kwargs ∅ ZBackend.world0
                   _ _ _)).
  Unshelve. vm_compute. reflexivity.
Defined.

(** X11: with a single split, [call(x)] is the output of the only
    sub-network on [split_data_configurator(0, x)]: [tf.concat] returns the
    only value it is given. *)
Theorem SplitNetwork_single_split {scalar} `{Primitives scalar}
    (cfg : nat → Tensor3 scalar → Tensor3 scalar) network_type network_kwargs kw w w' self :
  SplitNetwork.init 1 cfg network_type network_kwargs kw w = (w', inr self) →
  ∃ net,
    SplitNetwork.networks self = [net]
    ∧ ∀ x, SplitNetwork.call self x = inr (Network_call net (cfg 0 x)).
Proof.
  intros Hinit. rewrite SplitNetwork_init_run in Hinit.
  destruct (list_comp 1 _ _) as [w1 [e|nets]] eqn:Hnets; [discriminate|].
  injection Hinit as <- <-.
  pose proof (list_comp_length _ _ _ _ _ Hnets) as Hlen.
  destruct nets as [|net [|net' nets]]; simpl in Hlen; try discriminate.
  exists net. split; reflexivity.
Qed.

Lemma SplitNetwork_single_split_witness :
  ∃ w' self net,
    SplitNetwork.init 1 ZBackend.split SetTransformer_cls transformer_kwargs ∅ ZBackend.world0
      = (w', inr self)
    ∧ SplitNetwork.networks self = [net]
    ∧ ∀ x, SplitNetwork.call self x = inr (Network_call net (ZBackend.split 0 x)).
Proof.
  edestruct (SplitNetwork_single_split (scalar := Z) ZBackend.split
               SetTransformer_cls transformer_kwargs ∅ ZBackend.world0)
    as (net & Hnets & Hcall).
  - vm_compute. reflexivity.
  - eexists _, _, net. split; [vm_compute; reflexivity|]. split; [exact Hnets | exact Hcall].
Defined.

(** ** Split network: what the output depends on *)

Lemma sub_outputs_ext {scalar} `{Primitives scalar} (self : SplitNetwork.t scalar) x x' indices :
  Forall (fun i => SplitNetwork.split_data_configurator self i x
                   = SplitNetwork.split_data_configurator self i x') indices →
  SplitNetwork.sub_outputs self x indices = SplitNetwork.sub_outputs self x' indices.
Proof.
  induction indices as [|i indices IH]; intros Hall; simpl; [reflexivity|].
  apply Forall_cons_1 in Hall as [Hi Hall]. rewrite Hi, (IH Hall). reflexivity.
Qed.

(** X12: a [SplitNetwork] sees its input through the routing function
    only: two inputs on which [split_data_configurator] returns the same
    sub-input for every split index below [num_splits] give the same result
    of [call], output or exception. *)
Theorem SplitNetwork_call_depends_on_routing_only {scalar} `{Primitives scalar}
    (self : SplitNetwork.t scalar) x x' :
  (∀ i, i < SplitNetwork.num_splits self →
        SplitNetwork.split_data_configurator self i x
        = SplitNetwork.split_data_configurator self i x') →
  SplitNetwork.call self x = SplitNetwork.call self x'.
Proof.
  intros Hroute. unfold SplitNetwork.call.
  rewrite (sub_outputs_ext self x x'); [reflexivity|].
  apply Forall_seq. intros i Hi. apply Hroute. lia.
Qed.

Lemma SplitNetwork_call_depends_on_routing_only_witness :
  let x' : Tensor3 Z := [ [ [1; 2]; [3; 9]; [5; 6] ]; [ [0; 1]; [7; 7]; [2; 0] ] ]%Z in
  ZBackend.x0 ≠ x'
  ∧ ∃ w' self,
      SplitNetwork.init 2 ZBackend.split SetTransformer_cls transformer_kwargs ∅ ZBackend.world0
        = (w', inr self)
      ∧ SplitNetwork.call self ZBackend.x0 = SplitNetwork.call self x'.
Proof.
  intros x'. split; [discriminate|].
  eexists _, _. split; [vm_compute; reflexivity|].
  apply (SplitNetwork_call_depends_on_routing_only (scalar := Z)).
  intros i Hi. destruct i as [|[|i]]; [reflexivity | reflexivity |].
  vm_compute in Hi. lia.
Defined.

(** A block of a concatenation of rows of width [S]. *)
Lemma concat_block {A} (rows : list (list A)) width k r :
  Forall (fun row => length row = width) rows → rows !! k = Some r →
  take width (drop (k * width) (concat rows)) = r.
Proof.
  revert k. induction rows as [|r0 rows IH]; intros k Hrows Hk; [by rewrite lookup_nil in Hk|].
  apply Forall_cons_1 in Hrows as [Hr0 Hrows]. destruct k as [|k]; simpl in *.
  - injection Hk as <-. by apply take_app_length'.
  - rewrite drop_app_add' by done. by apply IH.
Qed.

Lemma has_shape2_row {scalar} (t : Tensor2 scalar) b S j :
  has_shape2 t b S → j < b → length (nth j t []) = S.
Proof.
  intros [Hb Hrows] Hj. rewrite Forall_lookup in Hrows.
  destruct (nth_lookup_or_length t j []) as [Hrow|Hge]; [eauto | lia].
Qed.

(** X13: in the output of a constructed [SplitNetwork] whose sub-networks
    all return shape [(batch, S)], the features from [k * S] to
    [(k + 1) * S] are the output of sub-network [k] on
    [split_data_configurator(k, x)], for every split [k]. *)
Theorem SplitNetwork_output_blocks {scalar} `{Primitives scalar}
    M cfg network_type network_kwargs kw w w' self (x : Tensor3 scalar) b S :
  SplitNetwork.init M cfg network_type network_kwargs kw w = (w', inr self) →
  (∀ i net, SplitNetwork.networks self !! i = Some net →
            has_shape2 (Network_call net (cfg i x)) b S) →
  ∀ k net, SplitNetwork.networks self !! k = Some net →
    ∃ out,
      SplitNetwork.call self x = inr out
      ∧ ∀ j, j < b →
          take S (drop (k * S) (nth j out [])) = nth j (Network_call net (cfg k x)) [].
Proof.
  intros Hinit Hshape k net Hk.
  destruct (SplitNetwork_init_inv _ _ _ _ _ _ _ _ Hinit) as (Hsplits & Hcfg & Hlen).
  destruct (sub_outputs_run self x (seq 0 M)) as (outs & Houts & Hall).
  { apply Forall_seq. intros i Hi. lia. }
  rewrite Hcfg in Hall.
  assert (HkM : k < M) by (apply lookup_lt_Some in Hk; lia).
  assert (Hshapes : Forall (fun u => has_shape2 u b S) outs).
  { apply Forall_lookup. intros i out_i Hi.
    destruct (Forall2_lookup_r _ _ _ _ _ Hall Hi) as (i' & _ & net' & Hnet' & ->). eauto. }
  destruct (Forall2_lookup_l _ _ _ k k Hall) as (out_k & Hout_k & net' & Hnet' & ->).
  { apply lookup_seq_lt. exact HkM. }
  rewrite Hk in Hnet'. injection Hnet' as <-.
  destruct (tf_concat_last_shape outs b S) as (out & Hout & _ & Hrows);
    [by intros -> | exact Hshapes |].
  exists out. unfold SplitNetwork.call. rewrite Hsplits, Houts. split; [exact Hout|].
  intros j Hj. rewrite Hrows. apply concat_block.
  - apply List.Forall_map. eapply Forall_impl; [exact Hshapes|]. simpl.
    intros u Hu. by eapply has_shape2_row.
  - change (map ?f ?l) with (f <$> l). unfold Tensor2 in *.
    by rewrite list_lookup_fmap, Hout_k.
Qed.

Lemma SplitNetwork_output_blocks_witness :
  ∃ w' self net out,
    SplitNetwork.init 3 ZBackend.split SetTransformer_cls transformer_kwargs ∅ ZBackend.world0
      = (w', inr self)
    ∧ SplitNetwork.networks self !! 2 = Some net
    ∧ SplitNetwork.call self ZBackend.x0 = inr out
    ∧ ∀ j, j < 2 →
        take 10 (drop (2 * 10) (nth j out []))
        = nth j (Network_call net (ZBackend.split 2 ZBackend.x0)) [].
Proof.
  edestruct (SplitNetwork_output_blocks (scalar := Z) 3 ZBackend.split
               SetTransformer_cls transformer_kwargs ∅ ZBackend.world0)
    with (x := ZBackend.x0) (b := 2) (S := 10) (k := 2) as (out & Hcall & Hblock).
  - vm_compute. reflexivity.
  - intros i net Hnet.
    destruct i as [|[|[|i]]]; vm_compute in Hnet; [| | |discriminate Hnet];
      injection Hnet as <-; vm_compute; (split; [reflexivity | repeat constructor]).
  - vm_compute. reflexivity.
  - eexists _, _, _, out. split; [vm_compute; reflexivity|].
    split; [vm_compute; reflexivity|]. split; [exact Hcall | exact Hblock].
Defined.

(** ** Split network: invariance inherited from the sub-networks *)

Section inherited_invariance.
Context {scalar : Type} `{Primitives scalar}.
Hypothesis equivariant_modules :
  ∀ m, keeps_element_axis (EquivariantModule_call m)
       ∧ permutation_equivariant (EquivariantModule_call m).
Hypothesis invariant_modules : ∀ m, permutation_invariant (InvariantModule_call m).
Hypothesis vanilla_blocks :
  ∀ blk kw, keeps_element_axis (SelfAttentionBlock_call blk kw)
            ∧ permutation_equivariant (SelfAttentionBlock_call blk kw).
Hypothesis induced_blocks :
  ∀ blk kw, keeps_element_axis (InducedSelfAttentionBlock_call blk kw)
            ∧ permutation_equivariant (InducedSelfAttentionBlock_call blk kw).
Hypothesis attention_pooling : ∀ p kw, permutation_invariant (PoolingWithAttention_call p kw).

Lemma DeepSet_call_invariant (self : DeepSet.t) : permutation_invariant (DeepSet.call self).
Proof.
  intros pi x b n d Hpi Hx. unfold DeepSet.call. cbv zeta. f_equal.
  rewrite (Sequential_equivariant EquivariantModule_call (DeepSet.equiv_layers self)
             (fun m => proj1 (equivariant_modules m))
             (fun m => proj2 (equivariant_modules m)) pi x b n d Hpi Hx).
  destruct (Sequential_keeps_element_axis EquivariantModule_call (DeepSet.equiv_layers self)
              (fun m => proj1 (equivariant_modules m)) x b n d Hx) as [d1 H1].
  exact (invariant_modules _ pi _ b n d1 Hpi H1).
Qed.

Lemma SetTransformer_call_invariant (self : SetTransformer.t) kw :
  permutation_invariant (SetTransformer.call self kw).
Proof.
  intros pi x b n d Hpi Hx. unfold SetTransformer.call. cbv zeta.
  assert (Hkeep : ∀ blk, keeps_element_axis (fun y => AttentionBlock_call blk kw y)).
  { intros [blk|blk]; [apply (vanilla_blocks blk kw) | apply (induced_blocks blk kw)]. }
  assert (Heq : ∀ blk, permutation_equivariant (fun y => AttentionBlock_call blk kw y)).
  { intros [blk|blk]; [apply (vanilla_blocks blk kw) | apply (induced_blocks blk kw)]. }
  rewrite (Sequential_equivariant (fun blk => AttentionBlock_call blk kw)
             (SetTransformer.attention_blocks self) Hkeep Heq pi x b n d Hpi Hx).
  destruct (Sequential_keeps_element_axis (fun blk => AttentionBlock_call blk kw)
              (SetTransformer.attention_blocks self) Hkeep x b n d Hx) as [d1 H1].
  exact (attention_pooling _ kw pi _ b n d1 Hpi H1).
Qed.

Lemma Network_call_invariant net :
  is_set_network net = true → permutation_invariant (Network_call net).
Proof.
  destruct net as [self|self|self|self]; simpl; intros Hset; try discriminate.
  - apply DeepSet_call_invariant.
  - apply DeepSet_call_invariant.
  - apply SetTransformer_call_invariant.
Qed.

Lemma sub_outputs_permuted (self : SplitNetwork.t scalar) pi x b n indices :
  Forall (fun net => is_set_network net = true) (SplitNetwork.networks self) →
  is_perm pi n →
  Forall (fun i =>
            SplitNetwork.split_data_configurator self i (permute_set pi x)
            = permute_set pi (SplitNetwork.split_data_configurator self i x)
            ∧ ∃ d, has_shape3 (SplitNetwork.split_data_configurator self i x) b n d) indices →
  SplitNetwork.sub_outputs self (permute_set pi x) indices
  = SplitNetwork.sub_outputs self x indices.
Proof.
  intros Hnets Hpi. induction indices as [|i indices IH]; intros Hall; simpl; [reflexivity|].
  apply Forall_cons_1 in Hall as [[Hi [d Hshape]] Hall].
  rewrite (IH Hall). destruct (SplitNetwork.networks self !! i) as [net|] eqn:Hnet;
    [|reflexivity].
  rewrite Forall_lookup in Hnets.
  rewrite Hi, (Network_call_invariant net (Hnets i net Hnet) pi _ b n d Hpi Hshape).
  reflexivity.
Qed.

(** X14: a [SplitNetwork] made of networks for sets is permutation
    invariant on the inputs that the routing function treats
    equivariantly: when [split_data_configurator(i, .)] commutes with the
    reordering of the element axis for every split, and the primitive
    layers keep their equivariance and invariance contracts, [call] returns
    on the reordered input what it returns on the input. *)
Theorem SplitNetwork_inherits_permutation_invariance (self : SplitNetwork.t scalar)
    pi x b n :
  Forall (fun net => is_set_network net = true) (SplitNetwork.networks self) →
  is_perm pi n →
  (∀ i, i < SplitNetwork.num_splits self →
        SplitNetwork.split_data_configurator self i (permute_set pi x)
        = permute_set pi (SplitNetwork.split_data_configurator self i x)
        ∧ ∃ d, has_shape3 (SplitNetwork.split_data_configurator self i x) b n d) →
  SplitNetwork.call self (permute_set pi x) = SplitNetwork.call self x.
Proof.
  intros Hnets Hpi Hroute. unfold SplitNetwork.call.
  rewrite (sub_outputs_permuted self pi x b n); [reflexivity | exact Hnets | exact Hpi |].
  apply Forall_seq. intros i Hi. apply Hroute. lia.
Qed.

End inherited_invariance.

Lemma SplitNetwork_inherits_permutation_invariance_witness :
  ∃ w' self,
    SplitNetwork.init 2 ZBackend.split SetTransformer_cls transformer_kwargs ∅ ZBackend.world0
      = (w', inr self)
    ∧ permute_set [2; 0; 1] ZBackend.x0 ≠ ZBackend.x0
    ∧ SplitNetwork.call self (permute_set [2; 0; 1] ZBackend.x0)
      = SplitNetwork.call self ZBackend.x0.
Proof.
  eexists _, _. split; [vm_compute; reflexivity|]. split; [discriminate|].
  apply (SplitNetwork_inherits_permutation_invariance (scalar := Z)) with (b := 2) (n := 3).
  - intros m. split; [apply ZBackend_shift_keeps_element_axis | apply ZBackend_shift_equivariant].
  - intros m. apply ZBackend_pool_invariant.
  - intros blk kw. split; [apply ZBackend_shift_keeps_element_axis | apply ZBackend_shift_equivariant].
  - intros blk kw. split; [apply ZBackend_shift_keeps_element_axis | apply ZBackend_shift_equivariant].
  - intros p kw. apply ZBackend_pool_invariant.
  - repeat constructor.
  - unfold is_perm. simpl.
    apply perm_trans with [0; 2; 1]; [apply perm_swap | apply perm_skip, perm_swap].
  - intros i Hi. destruct i as [|[|i]]; [| |vm_compute in Hi; lia].
    + split; [reflexivity|]. exists 2. split; [reflexivity|]. repeat constructor.
    + split; [reflexivity|]. exists 2. split; [reflexivity|]. repeat constructor.
Defined.

(** ** The routing function of the docstring *)

Lemma is_perm_lt pi n j : is_perm pi n → j ∈ pi → j < n.
Proof.
  intros Hpi Hj. unfold is_perm in Hpi. rewrite Hpi in Hj.
  apply elem_of_seq in Hj. lia.
Qed.

Lemma nth_map_lt {A B} (g : A → B) (l : list A) j dA dB :
  j < length l → nth j (map g l) dB = g (nth j l dA).
Proof.
  intros Hj. rewrite (nth_indep (map g l) dB (g dA)) by (by rewrite length_map).
  apply map_nth.
Qed.

(** X15: the routing function given as example in the docstring of
    [SplitNetwork], the selector of split [i] stacked with the selected
    data, commutes with every reordering of the element axis and returns
    two features per observation; it is a routing function under which a
    split network of set networks is permutation invariant.  The input
    has the two features, split label and data, that the function reads. *)
Theorem docstring_split_is_equivariant i pi (x : Tensor3 Z) b n d :
  2 ≤ d → is_perm pi n → has_shape3 x b n d →
  ZBackend.split i (permute_set pi x) = permute_set pi (ZBackend.split i x)
  ∧ has_shape3 (ZBackend.split i x) b n 2.
Proof.
  intros _ Hpi [Hb Hsets]. split.
  - unfold ZBackend.split, permute_set. rewrite !map_map.
    apply map_ext_in. intros set Hset.
    rewrite List.Forall_forall in Hsets. destruct (Hsets set Hset) as [Hn _].
    rewrite map_map. apply map_ext_in. intros j Hj.
    symmetry.
    match goal with
    | |- nth j (map ?g set) [] = _ => apply (nth_map_lt g set j [] [])
    end.
    rewrite Hn. apply (is_perm_lt pi n j Hpi). by apply list_elem_of_In.
  - split; [by unfold ZBackend.split; rewrite length_map|].
    unfold ZBackend.split. apply List.Forall_map.
    eapply List.Forall_impl; [|exact Hsets]. intros set [Hn _].
    split; [by rewrite length_map|].
    apply List.Forall_map, List.Forall_forall. intros e _. reflexivity.
Qed.

Lemma docstring_split_is_equivariant_witness :
  ZBackend.split 1 (permute_set [2; 0; 1] ZBackend.x0)
  = permute_set [2; 0; 1] (ZBackend.split 1 ZBackend.x0)
  ∧ has_shape3 (ZBackend.split 1 ZBackend.x0) 2 3 2.
Proof.
  apply (docstring_split_is_equivariant 1 [2; 0; 1] ZBackend.x0 2 3 2).
  - repeat constructor.
  - unfold is_perm. simpl.
    apply perm_trans with [0; 2; 1]; [apply perm_swap | apply perm_skip, perm_swap].
  - split; [reflexivity|]. repeat constructor.
Defined.

(** ** Split network: one configuration for all sub-networks *)

(** Binding keywords gives the same outcome in every world. *)
Lemma bind_pure {A B} (m : Py A) (f : A → Py B) :
  (∀ w w0, m w = (w, snd (m w0))) → (∀ a w w0, f a w = (w, snd (f a w0))) →
  ∀ w w0, (m ≫= f) w = (w, snd ((m ≫= f) w0)).
Proof.
  intros Hm Hf w w0. unfold mbind, Py_bind.
  pose proof (Hm w w0) as Hw. pose proof (Hm w0 w0) as Hw0.
  destruct (m w0) as [w0' r]. simpl in Hw, Hw0. rewrite Hw.
  injection Hw0 as ->. destruct r as [e|a]; [reflexivity|]. apply Hf.
Qed.

Lemma kw_nat_pure kw name default w w0 :
  kw_nat kw name default w = (w, snd (kw_nat kw name default w0)).
Proof.
  unfold kw_nat. destruct (kw !! name) as [[]|]; try reflexivity.
  by destruct (decide _).
Qed.

Lemma kw_dict_or_None_pure kw name w w0 :
  kw_dict_or_None kw name w = (w, snd (kw_dict_or_None kw name w0)).
Proof. unfold kw_dict_or_None. by destruct (kw !! name) as [[]|]. Qed.

Lemma DeepSet_bind_args_pure kw w w0 :
  DeepSet.bind_args kw w = (w, snd (DeepSet.bind_args kw w0)).
Proof.
  unfold DeepSet.bind_args.
  repeat first
    [ apply kw_nat_pure | apply kw_dict_or_None_pure | reflexivity
    | apply bind_pure; [intros ? ? | intros ? ? ?] ].
Qed.

(** Every element of a comprehension is what one run of the body returned. *)
Lemma list_comp_elements {A} (body : Py A) n w w' xs :
  list_comp n body w = (w', inr xs) →
  Forall (fun x => ∃ w1 w2, body w1 = (w2, inr x)) xs.
Proof.
  revert w w' xs. induction n as [|n IH]; intros w w' xs; simpl.
  - intros [= <- <-]. constructor.
  - unfold mbind, Py_bind. destruct (body w) as [w1 [e|x]] eqn:Hx; [discriminate|].
    destruct (list_comp n body w1) as [w2 [e|ys]] eqn:Hys; [discriminate|].
    intros [= <- <-]. constructor; eauto.
Qed.

(** X16: the sub-networks of a [SplitNetwork] constructed with the class
    [DeepSet] are all built from the one set of arguments that
    [network_kwargs] binds: they are deep sets with the same number of
    equivariant modules, the same settings dictionary and the same number
    of output units. *)
Theorem SplitNetwork_subnetworks_share_configuration {scalar} defaults n
    (cfg : nat → Tensor3 scalar → Tensor3 scalar) network_kwargs kw w w' self :
  SplitNetwork.init n cfg (DeepSet_cls defaults) network_kwargs kw w = (w', inr self) →
  1 ≤ n →
  ∃ a,
    snd (DeepSet.bind_args network_kwargs w) = inr a
    ∧ Forall (fun net => ∃ d,
                net = IsDeepSet d
                ∧ length (DeepSet.equiv_layers d) = DeepSet.num_equiv a
                ∧ inv_settings (DeepSet.inv d) = DeepSet.settings defaults a
                ∧ dense_units (DeepSet.out_layer d) = DeepSet.summary_dim a)
             (SplitNetwork.networks self).
Proof.
  intros Hinit Hn. rewrite SplitNetwork_init_run in Hinit.
  destruct (list_comp n _ _) as [w1 [e|nets]] eqn:Hnets; [discriminate|].
  injection Hinit as <- <-. simpl.
  pose proof (list_comp_length _ _ _ _ _ Hnets) as Hlen.
  apply list_comp_elements in Hnets.
  destruct (snd (DeepSet.bind_args network_kwargs w)) as [e|a] eqn:Hbind.
  - destruct nets as [|net nets]; [simpl in Hlen; lia|].
    apply Forall_cons_1 in Hnets as [(w2 & w3 & Hnet) _].
    unfold DeepSet_cls, mbind, Py_bind in Hnet.
    rewrite (DeepSet_bind_args_pure network_kwargs w2 w), Hbind in Hnet. discriminate.
  - exists a. split; [reflexivity|].
    eapply Forall_impl; [exact Hnets|]. simpl. intros net (w2 & w3 & Hnet).
    unfold DeepSet_cls, mbind, Py_bind in Hnet.
    rewrite (DeepSet_bind_args_pure network_kwargs w2 w), Hbind in Hnet.
    rewrite DeepSet_init_run in Hnet. cbv zeta in Hnet.
    destruct (snd (resolve_pooling_fun _ _)) as [e|p]; [discriminate|].
    injection Hnet as <- <-. eexists. split; [reflexivity|]. simpl.
    split; [by rewrite length_map, length_seq|]. split; reflexivity.
Qed.

Lemma SplitNetwork_subnetworks_share_configuration_witness :
  ∃ w' self,
    SplitNetwork.init 1 ZBackend.split (DeepSet_cls ZBackend.defaults0)
      {[ "summary_dim" := PInt 4; "num_equiv" := PInt 0 ]} ∅ ZBackend.world0 = (w', inr self)
    ∧ Forall (fun net => ∃ d,
                net = IsDeepSet d
                ∧ length (DeepSet.equiv_layers d) = 0
                ∧ dense_units (DeepSet.out_layer d) = 4)
             (SplitNetwork.networks self).
Proof.
  edestruct (SplitNetwork_subnetworks_share_configuration (scalar := Z) ZBackend.defaults0 1
               ZBackend.split {[ "summary_dim" := PInt 4; "num_equiv" := PInt 0 ]} ∅
               ZBackend.world0) as (a & Hbind & Hall).
  - vm_compute. reflexivity.
  - repeat constructor.
  - vm_compute in Hbind. injection Hbind as <-.
    eexists _, _. split; [vm_compute; reflexivity|].
    eapply Forall_impl; [exact Hall|]. simpl.
    intros net (d & Hd & Hlen & _ & Hunits). eauto.
Defined.

(** ** Split network: a pooling network handed in is shared *)

(** X17: when [network_type] is [DeepSet] (or its alias) and
    [network_kwargs] hands in a learnable pooling network as [pooling_fun],
    every sub-network of the constructed [SplitNetwork] holds that one
    pooling network: any two splits have an object, and with it trainable
    parameters, in common. *)
Theorem SplitNetwork_shares_pooling_network {scalar} defaults n
    (cfg : nat → Tensor3 scalar → Tensor3 scalar) network_type network_kwargs kw w w' self f :
  network_type = DeepSet_cls defaults ∨ network_type = InvariantNetwork_cls defaults →
  network_kwargs !! "pooling_fun" = Some (PCallable f) →
  SplitNetwork.init n cfg network_type network_kwargs kw w = (w', inr self) →
  Forall (fun net => Given f ∈ Network_object_ids net) (SplitNetwork.networks self)
  ∧ ∀ i j ni nj,
      SplitNetwork.networks self !! i = Some ni → SplitNetwork.networks self !! j = Some nj →
      ∃ r, r ∈ Network_object_ids ni ∧ r ∈ Network_object_ids nj.
Proof.
  intros Hcls Hkw Hinit. rewrite SplitNetwork_init_run in Hinit.
  destruct (list_comp n _ _) as [w1 [e|nets]] eqn:Hnets; [discriminate|].
  injection Hinit as <- <-. simpl.
  apply list_comp_elements in Hnets.
  assert (Hall : Forall (fun net => Given f ∈ Network_object_ids net) nets).
  { eapply Forall_impl; [exact Hnets|]. simpl. intros net (w2 & w3 & Hnet).
    destruct Hcls as [-> | ->].
    - unfold DeepSet_cls, mbind, Py_bind in Hnet.
      destruct (DeepSet.bind_args network_kwargs w2) as [w4 [e|a]] eqn:Hbind; [discriminate|].
      pose proof (DeepSet_bind_args_pooling_fun _ _ _ _ Hbind) as Hpool.
      rewrite Hkw in Hpool. simpl in Hpool.
      destruct (DeepSet.init defaults a w4) as [w5 [e|d]] eqn:Hd; [discriminate|].
      injection Hnet as <- <-. simpl.
      exact (DeepSet_init_holds_pooling_network _ _ _ _ _ _ Hpool Hd).
    - unfold InvariantNetwork_cls, mbind, Py_bind in Hnet.
      destruct (DeepSet.bind_args network_kwargs w2) as [w4 [e|a]] eqn:Hbind; [discriminate|].
      pose proof (DeepSet_bind_args_pooling_fun _ _ _ _ Hbind) as Hpool.
      rewrite Hkw in Hpool. simpl in Hpool.
      rewrite InvariantNetwork_init_run in Hnet.
      destruct (DeepSet.init defaults a w4) as [w5 [e|d]] eqn:Hd; simpl in Hnet;
        [discriminate|].
      injection Hnet as <- <-. simpl.
      exact (DeepSet_init_holds_pooling_network _ _ _ _ _ _ Hpool Hd). }
  split; [exact Hall|].
  intros i j ni nj Hi Hj. exists (Given f).
  rewrite Forall_lookup in Hall. eauto.
Qed.

Lemma SplitNetwork_shares_pooling_network_witness :
  ∃ w' self,
    SplitNetwork.init 2 ZBackend.split (DeepSet_cls ZBackend.defaults0)
      {[ "pooling_fun" := PCallable 7; "num_equiv" := PInt 0 ]} ∅ ZBackend.world0
      = (w', inr self)
    ∧ length (SplitNetwork.networks self) = 2
    ∧ Forall (fun net => Given 7 ∈ Network_object_ids net) (SplitNetwork.networks self).
Proof.
  edestruct (SplitNetwork_shares_pooling_network (scalar := Z) ZBackend.defaults0 2
               ZBackend.split (DeepSet_cls ZBackend.defaults0)
               {[ "pooling_fun" := PCallable 7; "num_equiv" := PInt 0 ]} ∅ ZBackend.world0)
    as (Hall & _).
  - left. reflexivity.
  - reflexivity.
  - vm_compute. reflexivity.
  - eexists _, _. split; [vm_compute; reflexivity|]. split; [reflexivity | exact Hall].
Defined.
